(** * Sign Translator backend: the transcription request handler

    A shallow embedding of [sign_translator/backend/main.py] and the
    properties of its request pipeline.

    Python [str] values are modelled as lists of characters.  A character
    is an [ascii], read as the Unicode code point of the same number
    (U+0000 .. U+00FF, the Latin-1 range).  That range is closed under
    [str.lower], and on it [str.lower], [str.isalnum] and [str.isspace]
    are the tables given in [PyStr] below.

    Everything outside the process (environment variables, the file
    system, [subprocess.run], the OpenAI SDK) is an oracle of the record
    [world]; the functions of the source return the events they cause
    together with their outcome, which is a value or a raised exception. *)

From Stdlib Require Import List Ascii String Bool Arith NArith ZArith Lia.
Import ListNotations.

Set Implicit Arguments.

(** ** Python strings and the built-ins the source calls *)

Module PyStr.

Definition pystr := list ascii.

(** A string literal of the source. *)
Definition lit (s : string) : pystr := list_ascii_of_string s.

Definition code (c : ascii) : N := N_of_ascii c.

Definition between (lo hi : N) (c : ascii) : bool :=
  ((lo <=? code c) && (code c <=? hi))%N.

Definition is_code (n : N) (c : ascii) : bool := (code c =? n)%N.

(** [ch.isspace()]: TAB..CR, FS..US, SPACE, NEL and NO-BREAK SPACE. *)
Definition isspace (c : ascii) : bool :=
  between 9 13 c || between 28 32 c || is_code 133 c || is_code 160 c.

(** [ch.isalnum()]: the ASCII digits and letters, the ordinal indicators
    and MICRO SIGN, the superscript digits and vulgar fractions, and the
    Latin-1 letters (all of U+00C0..U+00FF but the two operators). *)
Definition isalnum (c : ascii) : bool :=
  between 48 57 c || between 65 90 c || between 97 122 c
  || is_code 170 c || between 178 179 c || is_code 181 c || between 185 186 c
  || between 188 190 c
  || between 192 214 c || between 216 246 c || between 248 255 c.

(** [ch.lower()]: A..Z and the capital Latin-1 letters move up by 32. *)
Definition lower_char (c : ascii) : ascii :=
  if between 65 90 c || between 192 214 c || between 216 222 c
  then ascii_of_N (code c + 32)
  else c.

(** [s.lower()] *)
Definition lower (s : pystr) : pystr := map lower_char s.

(** Truth value of a string: [bool(s)]. *)
Definition truthy (s : pystr) : bool :=
  match s with [] => false | _ :: _ => true end.

Definition eqb (s t : pystr) : bool :=
  if list_eq_dec ascii_dec s t then true else false.

(** [s.split()] with no argument: the maximal runs of characters that are
    not whitespace, in order; never an empty string. *)
Fixpoint split (s : pystr) : list pystr :=
  match s with
  | [] => []
  | c :: s' =>
      if isspace c then split s'
      else match s' with
           | [] => [[c]]
           | d :: _ =>
               if isspace d then [c] :: split s'
               else match split s' with
                    | w :: ws => (c :: w) :: ws
                    | [] => [[c]]
                    end
           end
  end.

(** [s.split(sep)] for a one-character separator: empty pieces are kept,
    and the result always has at least one piece. *)
Fixpoint split_on (sep : ascii) (s : pystr) : list pystr :=
  match s with
  | [] => [[]]
  | c :: s' =>
      if Ascii.eqb c sep then [] :: split_on sep s'
      else match split_on sep s' with
           | w :: ws => (c :: w) :: ws
           | [] => [[c]]
           end
  end.

(** [sep.join(ws)] *)
Fixpoint join (sep : pystr) (ws : list pystr) : pystr :=
  match ws with
  | [] => []
  | [w] => w
  | w :: ws' => w ++ sep ++ join sep ws'
  end.

Fixpoint lstrip (s : pystr) : pystr :=
  match s with
  | [] => []
  | c :: s' => if isspace c then lstrip s' else s
  end.

Definition rstrip (s : pystr) : pystr := rev (lstrip (rev s)).

(** [s.strip()] *)
Definition strip (s : pystr) : pystr := rstrip (lstrip s).

(** [s[:n]] for a non-negative [n] *)
Definition slice_to (n : nat) (s : pystr) : pystr := firstn n s.

End PyStr.
Import PyStr.

(** ** The tokenizer *)

(** The generator expression of [tokenize]: one character of the cleaned
    text. *)
Definition clean_char (ch : ascii) : ascii :=
  if isalnum ch || isspace ch then ch else " "%char.

Definition cleanup (text : pystr) : pystr := map clean_char (lower text).

Definition tokenize (text : pystr) : list pystr :=
  filter truthy (split (cleanup text)).

(** ** Exceptions, events and the world outside the process *)

(** The classes of the exceptions the pipeline can meet.  All of them derive
    from [Exception]; [FileNotFoundError] and [PermissionError] are the
    subclasses of [OSError] that [subprocess.run] raises when the
    executable is missing or may not be executed. *)
Inductive exc_class :=
| FileNotFoundError
| PermissionError
| OSError
| RuntimeError
| ImportError
| ValueError
| OtherException.

(** An exception object: its class and [str(e)]. *)
Record pyexc := mkExc { exc_type : exc_class; exc_str : pystr }.

Definition is_FileNotFoundError (e : pyexc) : bool :=
  match exc_type e with FileNotFoundError => true | _ => false end.

(** What escapes the request handler: an exception of a library, which is
    not handled, or the [HTTPException] the handler raises itself and
    which the framework renders as a response with that status and detail. *)
Inductive handler_exc :=
| Uncaught (e : pyexc)
| HTTPException (status_code : Z) (detail : pystr).

Inductive outcome (E A : Type) :=
| Return (a : A)
| Raise (e : E).
Arguments Return {E A} a.
Arguments Raise {E A} e.

(** [subprocess.CompletedProcess], the fields the source reads. *)
Record completed_process := { returncode : Z; stderr : pystr }.

(** The object [client.audio.transcriptions.create] returns:
    [attr_text] is [getattr(transcription, "text", None)], and [dict_text]
    is [Some (transcription.get("text"))] when the object is a [dict]. *)
Record api_response :=
  { attr_text : option pystr; dict_text : option (option pystr) }.

(** The calls that leave the process. *)
Inductive event :=
| EvMkdtemp
| EvWriteFile (path : pystr) (data : list Byte.byte)
| EvRmtree (dir : pystr)
| EvRun (argv : list pystr)
| EvWhich (cmd : pystr)
| EvImportOpenAI
| EvNewClient (api_key : pystr)
| EvOpenRead (path : pystr)
| EvCreateTranscription (model : pystr).

Definition trace := list event.

(** The oracles.  Each answer may depend on everything that happened
    before the call, so the world may change between two calls; only the
    process environment is fixed during a request. *)
Record world := {
  getenv : pystr -> option pystr;
  mkdtemp : trace -> outcome pyexc pystr;
  write_file : trace -> pystr -> list Byte.byte -> outcome pyexc unit;
  rmtree : trace -> pystr -> outcome pyexc unit;
  subprocess_run : trace -> list pystr -> outcome pyexc completed_process;
  which : trace -> pystr -> option pystr;
  import_openai : trace -> outcome pyexc unit;
  new_client : trace -> pystr -> outcome pyexc unit;
  open_rb : trace -> pystr -> outcome pyexc unit;
  create_transcription : trace -> pystr -> outcome pyexc api_response
}.

(** ** A monad of traces and exceptions *)

Definition M (E A : Type) := trace -> trace * outcome E A.

Definition ret {E A} (a : A) : M E A := fun h => (h, Return a).

Definition raise {E A} (e : E) : M E A := fun h => (h, Raise e).

Definition bind {E A B} (m : M E A) (f : A -> M E B) : M E B :=
  fun h =>
    let (h', r) := m h in
    match r with
    | Return a => f a h'
    | Raise e => (h', Raise e)
    end.

(** [try: m  except Exception as e: handler e] *)
Definition try_except {E E' A} (m : M E A) (handler : E -> M E' A) : M E' A :=
  fun h =>
    let (h', r) := m h in
    match r with
    | Return a => (h', Return a)
    | Raise e => handler e h'
    end.

(** [try: m  except C: handler], for the exceptions [is_C] selects; the
    others go on. *)
Definition try_except_class {A} (is_C : pyexc -> bool)
    (m : M pyexc A) (handler : M pyexc A) : M pyexc A :=
  try_except m (fun e => if is_C e then handler else raise e).

(** A call that leaves the process: it is recorded, and the oracle answers
    from what happened before it. *)
Definition call {A} (ev : event) (oracle : trace -> outcome pyexc A)
  : M pyexc A :=
  fun h => (h ++ [ev], oracle h).

(** Code of the handler that is outside every [try]: what it raises
    escapes. *)
Definition lift {A} (m : M pyexc A) : M handler_exc A :=
  try_except m (fun e => raise (Uncaught e)).

Declare Scope py_scope.
Delimit Scope py_scope with py.
Notation "x <- m ;; k" := (bind m (fun x => k))
  (at level 61, m at next level, right associativity) : py_scope.
Notation "m ;; k" := (bind m (fun _ => k))
  (at level 61, right associativity) : py_scope.
Local Open Scope py_scope.

Definition truthy_opt (o : option pystr) : bool :=
  match o with Some s => truthy s | None => false end.

(** The string an [Optional[str]] known to be truthy holds. *)
Definition the_str (o : option pystr) : pystr :=
  match o with Some s => s | None => [] end.

(** ** The source, function by function *)

Definition ALLOWED_EXTENSIONS : list pystr :=
  [lit "mp4"; lit "mov"; lit "mkv"; lit "webm"; lit "mp3"; lit "wav";
   lit "m4a"].

Definition get_ffmpeg_executable (w : world) : pystr :=
  let custom := getenv w (lit "FFMPEG_PATH") in
  if truthy_opt custom then strip (the_str custom) else lit "ffmpeg".

Definition _has_ffmpeg (w : world) : M pyexc bool :=
  let exe := get_ffmpeg_executable w in
  try_except_class is_FileNotFoundError
    (call (EvRun [exe; lit "-version"])
          (fun h => subprocess_run w h [exe; lit "-version"]) ;;
     ret true)
    (ret false).

Definition ffmpeg_not_found : pystr :=
  lit "ffmpeg not found. Install it or set FFMPEG_PATH to full executable path (e.g. C:/ffmpeg/bin/ffmpeg.exe).".

Definition extract_audio (w : world) (input_path output_path : pystr)
  : M pyexc unit :=
  let exe := get_ffmpeg_executable w in
  ok <- _has_ffmpeg w ;;
  if negb ok then raise (mkExc RuntimeError ffmpeg_not_found)
  else
    let cmd :=
      [exe; lit "-y"; lit "-i"; input_path; lit "-vn";
       lit "-acodec"; lit "pcm_s16le"; lit "-ar"; lit "16000";
       lit "-ac"; lit "1"; output_path] in
    result <- call (EvRun cmd) (fun h => subprocess_run w h cmd) ;;
    if negb (returncode result =? 0)%Z
    then raise (mkExc RuntimeError
                  (lit "ffmpeg failed (cmd: " ++ exe ++ lit "): "
                   ++ slice_to 500 (stderr result)))
    else ret tt.

Definition placeholder : pystr :=
  lit "hello world this is a sample transcription for sign translation demo".

Definition unavailable : pystr :=
  lit "transcription unavailable (OpenAI models not reachable)".

(** The body of the inner [try] for one model name: [Some text] when the
    function returns [text] from there, [None] when the loop goes on. *)
Definition attempt (w : world) (audio_path model_name : pystr)
  : M pyexc (option pystr) :=
  call (EvOpenRead audio_path) (fun h => open_rb w h audio_path) ;;
  transcription <- call (EvCreateTranscription model_name)
                     (fun h => create_transcription w h model_name) ;;
  let text := attr_text transcription in
  let text :=
    match dict_text transcription with
    | Some entry => if negb (truthy_opt text) then entry else text
    | None => text
    end in
  if truthy_opt text then ret (Some (the_str text)) else ret None.

(** The [for model_name in [...]] loop; [except Exception: continue]. *)
Fixpoint for_models (w : world) (audio_path : pystr) (models : list pystr)
  : M pyexc (option pystr) :=
  match models with
  | [] => ret None
  | model_name :: rest =>
      r <- try_except (attempt w audio_path model_name)
             (fun _ => ret None) ;;
      match r with
      | Some text => ret (Some text)
      | None => for_models w audio_path rest
      end
  end.

Definition transcribe_audio (w : world) (audio_path : pystr) : M pyexc pystr :=
  let api_key := getenv w (lit "OPENAI_API_KEY") in
  if truthy_opt api_key then
    try_except
      (call EvImportOpenAI (import_openai w) ;;
       call (EvNewClient (the_str api_key))
            (fun h => new_client w h (the_str api_key)) ;;
       r <- for_models w audio_path
              [lit "gpt-4o-transcribe"; lit "whisper-1"] ;;
       match r with
       | Some text => ret text
       | None => ret unavailable
       end)
      (fun e => ret (slice_to 500 (lit "transcription error: " ++ exc_str e)))
  else ret placeholder.

(** The response body of a successful request. *)
Record word_entry := { key_w : pystr; key_i : nat }.
Record body := { key_text : pystr; key_words : list word_entry }.

Fixpoint enumerate_from {A} (start : nat) (l : list A) : list (nat * A) :=
  match l with
  | [] => []
  | x :: l' => (start, x) :: enumerate_from (S start) l'
  end.

Definition enumerate {A} (l : list A) : list (nat * A) := enumerate_from 0 l.

(** [fastapi.UploadFile]: the fields the handler reads. *)
Record upload := { filename : option pystr; content : list Byte.byte }.

(** [Path(td) / name], as a string. *)
Definition path_join (td name : pystr) : pystr := td ++ lit "/" ++ name.

(** [with tempfile.TemporaryDirectory() as td: body td]; the directory is
    removed on every way out of the block, and what the removal raises
    replaces the outcome of the block. *)
Definition with_TemporaryDirectory {A} (w : world)
    (block : pystr -> M handler_exc A) : M handler_exc A :=
  td <- lift (call EvMkdtemp (mkdtemp w)) ;;
  fun h =>
    let (h1, r) := block td h in
    let (h2, c) := call (EvRmtree td) (fun h => rmtree w h td) h1 in
    match c with
    | Return _ => (h2, r)
    | Raise e => (h2, Raise (Uncaught e))
    end.

(** The extension the handler validates. *)
Definition upload_suffix (file : upload) : pystr :=
  let filename :=
    if truthy_opt (filename file) then the_str (filename file)
    else lit "upload" in
  lower (last (split_on "."%char filename) []).

Definition allowed (suffix : pystr) : bool :=
  existsb (PyStr.eqb suffix) ALLOWED_EXTENSIONS.

Definition transcribe (w : world) (file : upload) : M handler_exc body :=
  let suffix := upload_suffix file in
  if negb (allowed suffix)
  then raise (HTTPException 400 (lit "Unsupported file type"))
  else
    text <- with_TemporaryDirectory w (fun td =>
      let temp_in := path_join td (lit "input." ++ suffix) in
      lift (call (EvWriteFile temp_in (content file))
                 (fun h => write_file w h temp_in (content file))) ;;
      let audio_out := path_join td (lit "audio.wav") in
      try_except
        (extract_audio w temp_in audio_out ;;
         transcribe_audio w audio_out)
        (fun e => raise (HTTPException 500 (exc_str e)))) ;;
    let words := tokenize text in
    ret {| key_text := text;
           key_words :=
             map (fun iw => {| key_w := snd iw; key_i := fst iw |})
                 (enumerate words) |}.

(** [GET /api/config] *)
Record ffmpeg_report :=
  { configured : pystr; resolved : option pystr; available : bool }.

Definition api_config (w : world) : M pyexc ffmpeg_report :=
  let exe := get_ffmpeg_executable w in
  fun h =>
    let (h1, resolved) :=
      if truthy exe then (h ++ [EvWhich exe], which w h exe) else (h, None) in
    (ok <- _has_ffmpeg w ;;
     ret {| configured := exe; resolved := resolved; available := ok |}) h1.

(** The response the framework sends for an outcome of a handler. *)
Inductive response :=
| Json200 (b : body)
| ErrorDetail (status_code : Z) (detail : pystr)
| InternalServerError.

Definition render (r : outcome handler_exc body) : response :=
  match r with
  | Return b => Json200 b
  | Raise (HTTPException status detail) => ErrorDetail status detail
  | Raise (Uncaught _) => InternalServerError
  end.

(** ** Vocabulary of the properties *)

(** [ch.isupper()] on the Latin-1 range. *)
Definition isupper (c : ascii) : bool :=
  between 65 90 c || between 192 214 c || between 216 222 c.

(** The character class [[a-z0-9]]. *)
Definition is_az09 (c : ascii) : bool := between 97 122 c || between 48 57 c.

(** A token matches [^[a-z0-9]+$]: it is not empty and every character is
    in the class.  (A token holds no line break, so [$] is the end.) *)
Definition matches_az09_plus (tok : pystr) : bool :=
  truthy tok && forallb is_az09 tok.

Definition is_ascii (c : ascii) : bool := (code c <? 128)%N.

(** A word: a non-empty string without whitespace. *)
Definition word (w : pystr) : Prop :=
  w <> [] /\ forall c, In c w -> isspace c = false.


(** The substring after the last ['.'] of a name, when the name has a
    ['.']. *)
Fixpoint after_last_dot (s : pystr) : option pystr :=
  match s with
  | [] => None
  | c :: s' =>
      match after_last_dot s' with
      | Some ext => Some ext
      | None => if Ascii.eqb c "."%char then Some s' else None
      end
  end.

(** The extension of a name: the lowercased substring after its last
    ['.'], and the lowercased name itself when it has no ['.']. *)
Definition extension (name : pystr) : pystr :=
  lower (match after_last_dot name with Some ext => ext | None => name end).

(** The name the handler works with: [file.filename or "upload"]. *)
Definition upload_name (file : upload) : pystr :=
  if truthy_opt (filename file) then the_str (filename file) else lit "upload".

Definition unsupported : handler_exc :=
  HTTPException 400 (lit "Unsupported file type").

(** The two paths of a request in its temporary directory. *)
Definition temp_in_of (td : pystr) (file : upload) : pystr :=
  path_join td (lit "input." ++ upload_suffix file).

Definition audio_out_of (td : pystr) : pystr := path_join td (lit "audio.wav").

(** Steps 3 and 4 of a request, the block inside the handler's [try]. *)
Definition pipeline (w : world) (file : upload) (td : pystr) : M pyexc pystr :=
  extract_audio w (temp_in_of td file) (audio_out_of td) ;;
  transcribe_audio w (audio_out_of td).

(** The prefix of the string [transcribe_audio] returns when the client
    cannot be set up. *)
Definition error_prefix : pystr := lit "transcription error: ".

(** The two model names [transcribe_audio] tries, in order. *)
Definition model_names : list pystr :=
  [lit "gpt-4o-transcribe"; lit "whisper-1"].

(** [text] is the non-empty text of a response the remote service gave for
    one of [models]: its [text] attribute, or its [text] entry. *)
Definition remote_text (w : world) (models : list pystr) (text : pystr)
  : Prop :=
  exists h model resp,
    In model models /\
    create_transcription w h model = Return resp /\
    (attr_text resp = Some text \/ dict_text resp = Some (Some text)) /\
    truthy text = true.

(** A computation only adds events to the trace it starts from. *)
Definition extends {E A} (m : M E A) : Prop :=
  forall h, exists t, fst (m h) = h ++ t.

(** The body the handler builds from a transcription. *)
Definition body_of (text : pystr) : body :=
  {| key_text := text;
     key_words :=
       map (fun iw => {| key_w := snd iw; key_i := fst iw |})
           (enumerate (tokenize text)) |}.

(** ** Sample worlds *)

Module Samples.

Definition no_env : pystr -> option pystr := fun _ => None.

Definition env1 (name value : pystr) : pystr -> option pystr :=
  fun k => if PyStr.eqb k name then Some value else None.

(** A host where every call succeeds: ffmpeg is installed and exits with
    status 0, and the remote service answers with a text. *)
Definition healthy (env : pystr -> option pystr) : world :=
  {| getenv := env;
     mkdtemp := fun _ => Return (lit "/tmp/tmpq1w2e3");
     write_file := fun _ _ _ => Return tt;
     rmtree := fun _ _ => Return tt;
     subprocess_run := fun _ _ => Return {| returncode := 0; stderr := [] |};
     which := fun _ _ => Some (lit "/usr/bin/ffmpeg");
     import_openai := fun _ => Return tt;
     new_client := fun _ _ => Return tt;
     open_rb := fun _ _ => Return tt;
     create_transcription := fun _ _ =>
       Return {| attr_text := Some (lit "Good morning, everyone!");
                 dict_text := None |} |}.

Definition disk_full : pyexc :=
  mkExc OSError (lit "[Errno 28] No space left on device").

(** The same host with no room left for the upload. *)
Definition full_disk : world :=
  let w := healthy no_env in
  {| getenv := getenv w;
     mkdtemp := mkdtemp w;
     write_file := fun _ _ _ => Raise disk_full;
     rmtree := rmtree w;
     subprocess_run := subprocess_run w;
     which := which w;
     import_openai := import_openai w;
     new_client := new_client w;
     open_rb := open_rb w;
     create_transcription := create_transcription w |}.

(** A host whose [subprocess.run] answers [run]. *)
Definition with_run (env : pystr -> option pystr)
    (run : list pystr -> outcome pyexc completed_process) : world :=
  let w := healthy env in
  {| getenv := getenv w;
     mkdtemp := mkdtemp w;
     write_file := write_file w;
     rmtree := rmtree w;
     subprocess_run := fun _ argv => run argv;
     which := which w;
     import_openai := import_openai w;
     new_client := new_client w;
     open_rb := open_rb w;
     create_transcription := create_transcription w |}.

Definition bad_key : pyexc :=
  mkExc OtherException (lit "The api_key client option must be set").

(** A host with a credential on which the client cannot be built. *)
Definition broken_client : world :=
  let w := healthy (env1 (lit "OPENAI_API_KEY") (lit "sk-test")) in
  {| getenv := getenv w;
     mkdtemp := mkdtemp w;
     write_file := write_file w;
     rmtree := rmtree w;
     subprocess_run := subprocess_run w;
     which := which w;
     import_openai := import_openai w;
     new_client := fun _ _ => Raise bad_key;
     open_rb := open_rb w;
     create_transcription := create_transcription w |}.

Definition wav : upload :=
  {| filename := Some (lit "sample.wav"); content := [] |}.

Definition clip_mp4 : upload :=
  {| filename := Some (lit "clip.mp4"); content := [] |}.

Definition clip_txt : upload :=
  {| filename := Some (lit "clip.txt"); content := [] |}.

(** An upload whose name is just [mp4]. *)
Definition bare_mp4 : upload :=
  {| filename := Some (lit "mp4"); content := [] |}.

(** [café], with U+00E9 as its last character. *)
Definition cafe : pystr := lit "caf" ++ ["233"%char].

Definition exit_with (rc : Z) : list pystr -> outcome pyexc completed_process :=
  fun _ => Return {| returncode := rc; stderr := lit "unknown option" |}.

Definition fails_with (cls : exc_class) (msg : pystr)
  : list pystr -> outcome pyexc completed_process :=
  fun _ => Raise (mkExc cls msg).

End Samples.

(** ** Vocabulary of the further properties *)

(** The command line of the availability probe. *)
Definition probe_argv (w : world) : list pystr :=
  [get_ffmpeg_executable w; lit "-version"].

(** The command line of the conversion. *)
Definition conversion_argv (w : world) (input_path output_path : pystr)
  : list pystr :=
  [get_ffmpeg_executable w; lit "-y"; lit "-i"; input_path; lit "-vn";
   lit "-acodec"; lit "pcm_s16le"; lit "-ar"; lit "16000";
   lit "-ac"; lit "1"; output_path].

(** The message of the error raised for a conversion that exits with a
    status other than 0. *)
Definition ffmpeg_failed (exe err : pystr) : pystr :=
  lit "ffmpeg failed (cmd: " ++ exe ++ lit "): " ++ slice_to 500 err.

(** The number of transcription requests in a trace. *)
Fixpoint requests (t : trace) : nat :=
  match t with
  | [] => 0
  | EvCreateTranscription _ :: t' => S (requests t')
  | _ :: t' => requests t'
  end.

Module Hosts.

Definition key_env : pystr -> option pystr :=
  Samples.env1 (lit "OPENAI_API_KEY") (lit "sk-test").

Definition timeout : pyexc := mkExc OtherException (lit "Request timed out.").

(** A host with a credential whose remote service never answers. *)
Definition service_down : world :=
  let w := Samples.healthy key_env in
  {| getenv := getenv w;
     mkdtemp := mkdtemp w;
     write_file := write_file w;
     rmtree := rmtree w;
     subprocess_run := subprocess_run w;
     which := which w;
     import_openai := import_openai w;
     new_client := new_client w;
     open_rb := open_rb w;
     create_transcription := fun _ _ => Raise timeout |}.

(** A host with a credential whose service answers a [dict] for the first
    model name and fails for the second. *)
Definition dict_answer : world :=
  let w := Samples.healthy key_env in
  {| getenv := getenv w;
     mkdtemp := mkdtemp w;
     write_file := write_file w;
     rmtree := rmtree w;
     subprocess_run := subprocess_run w;
     which := which w;
     import_openai := import_openai w;
     new_client := new_client w;
     open_rb := open_rb w;
     create_transcription := fun _ model =>
       if PyStr.eqb model (lit "gpt-4o-transcribe")
       then Return {| attr_text := None;
                      dict_text := Some (Some (lit "thank you")) |}
       else Raise timeout |}.

Definition no_exec : pyexc :=
  mkExc PermissionError (lit "[Errno 13] Permission denied: 'ffmpeg'").

(** A run that answers the version query and cannot launch anything
    else. *)
Definition probe_only : list pystr -> outcome pyexc completed_process :=
  fun argv =>
    match argv with
    | [_; _] => Return {| returncode := 0; stderr := [] |}
    | _ => Raise no_exec
    end.

Definition missing : pyexc :=
  mkExc FileNotFoundError (lit "[Errno 2] No such file or directory: 'ffmpeg'").

Definition upper_wav : upload :=
  {| filename := Some (lit "Talk.WAV"); content := [] |}.

End Hosts.

(** ** The character tables *)

Ltac each_char c := destruct c as [[] [] [] [] [] [] [] []].

Lemma isspace_space : isspace " "%char = true.
Proof. reflexivity. Qed.

Lemma lower_char_idem (c : ascii) : lower_char (lower_char c) = lower_char c.
Proof. each_char c; reflexivity. Qed.

Lemma alnum_or_space (c : ascii) : isalnum c && isspace c = false.
Proof. each_char c; reflexivity. Qed.

Lemma az09_not_upper (c : ascii) : is_az09 c = true -> isupper c = false.
Proof. each_char c; (reflexivity || discriminate). Qed.

Lemma ascii_alnum_class (c : ascii) :
  implb (is_ascii c && isalnum (lower_char c)) (is_az09 (lower_char c)) = true.
Proof. each_char c; reflexivity. Qed.

Lemma lower_char_space : lower_char " "%char = " "%char.
Proof. reflexivity. Qed.

Lemma clean_char_space : clean_char " "%char = " "%char.
Proof. reflexivity. Qed.

(** A character of the cleaned text that is not whitespace is an
    alphanumeric character of the lowercased text. *)
Lemma clean_char_nonspace (c : ascii) :
  isspace (clean_char c) = false -> clean_char c = c /\ isalnum c = true.
Proof.
  unfold clean_char.
  destruct (isalnum c) eqn:Ha; simpl.
  - auto.
  - destruct (isspace c) eqn:Hs; simpl.
    + congruence.
    + rewrite isspace_space. discriminate.
Qed.

Lemma clean_char_alnum (c : ascii) : isalnum c = true -> clean_char c = c.
Proof. unfold clean_char. intros ->. reflexivity. Qed.

(** ** [str.split] and [str.join] *)

Lemma split_cons_space (c : ascii) (s : pystr) :
  isspace c = true -> split (c :: s) = split s.
Proof. intros H. simpl. rewrite H. reflexivity. Qed.

(** Every piece [split] returns is a word made of characters of the
    string. *)
Lemma split_pieces (s : pystr) :
  forall w, In w (split s) -> word w /\ forall c, In c w -> In c s.
Proof.
  induction s as [|c s IH]; simpl; intros w Hw; [contradiction|].
  destruct (isspace c) eqn:Hc.
  - destruct (IH w Hw) as [Hword Hsub]. split; [exact Hword|].
    intros x Hx. right. auto.
  - assert (Hone : word [c] /\ forall x, In x [c] -> In x (c :: s)).
    { split; [split; [discriminate|]|].
      - intros x [<-|[]]. exact Hc.
      - intros x [<-|[]]. left. reflexivity. }
    destruct s as [|d s'].
    + destruct Hw as [<-|[]]. exact Hone.
    + destruct (isspace d) eqn:Hd.
      * destruct Hw as [<-|Hw]; [exact Hone|].
        destruct (IH w Hw) as [Hword Hsub]. split; [exact Hword|].
        intros x Hx. right. auto.
      * destruct (split (d :: s')) as [|w0 ws] eqn:Hsp.
        -- destruct Hw as [<-|[]]. exact Hone.
        -- destruct Hw as [<-|Hw].
           ++ destruct (IH w0 (or_introl eq_refl)) as [[_ Hns] Hsub].
              split; [split; [discriminate|]|].
              ** intros x [<-|Hx]; auto.
              ** intros x [<-|Hx]; [left; reflexivity|right; auto].
           ++ destruct (IH w (or_intror Hw)) as [Hword Hsub].
              split; [exact Hword|]. intros x Hx. right. auto.
Qed.

(** A word followed by the end of the string or by whitespace is the first
    piece. *)
Lemma split_word_app (w s : pystr) :
  word w ->
  (s = [] \/ exists d s', s = d :: s' /\ isspace d = true) ->
  split (w ++ s) = w :: split s.
Proof.
  intros [Hne Hns] Hs.
  induction w as [|c w IH]; [congruence|].
  assert (Hc : isspace c = false) by (apply Hns; left; reflexivity).
  destruct w as [|c' w'].
  - simpl. rewrite Hc.
    destruct Hs as [->|(d & s' & -> & Hd)]; [reflexivity|].
    rewrite Hd. reflexivity.
  - assert (Hc' : isspace c' = false) by (apply Hns; right; left; reflexivity).
    change ((c :: c' :: w') ++ s) with (c :: (c' :: w') ++ s).
    change (split (c :: (c' :: w') ++ s)) with
      (if isspace c then split ((c' :: w') ++ s)
       else match (c' :: w') ++ s with
            | [] => [[c]]
            | d :: _ =>
                if isspace d then [c] :: split ((c' :: w') ++ s)
                else match split ((c' :: w') ++ s) with
                     | w0 :: ws => (c :: w0) :: ws
                     | [] => [[c]]
                     end
            end).
    rewrite Hc. simpl app at 1. cbv iota. rewrite Hc'.
    rewrite IH; [reflexivity|discriminate|].
    intros x Hx. apply Hns. right. exact Hx.
Qed.

(** Splitting the join of words gives the words back. *)
Lemma split_join (ws : list pystr) :
  Forall word ws -> split (join (lit " ") ws) = ws.
Proof.
  induction 1 as [|w ws Hw Hws IH]; [reflexivity|].
  destruct ws as [|w2 ws'].
  - simpl. rewrite <- (app_nil_r w) at 1.
    rewrite split_word_app; auto.
  - change (join (lit " ") (w :: w2 :: ws'))
      with (w ++ " "%char :: join (lit " ") (w2 :: ws')).
    rewrite split_word_app; [|exact Hw|].
    + rewrite split_cons_space by reflexivity. rewrite IH. reflexivity.
    + right. eexists _, _. split; reflexivity.
Qed.

Lemma filter_truthy_words (ws : list pystr) :
  Forall word ws -> filter truthy ws = ws.
Proof.
  induction 1 as [|w ws [Hne _] _ IH]; [reflexivity|].
  simpl. destruct w; [congruence|]. simpl. rewrite IH. reflexivity.
Qed.

Lemma split_words (s : pystr) : Forall word (split s).
Proof. apply Forall_forall. intros w Hw. apply (split_pieces s w Hw). Qed.

(** The comprehension of [tokenize] drops nothing: [split] returns no empty
    string. *)
Lemma tokenize_split (text : pystr) : tokenize text = split (cleanup text).
Proof. apply filter_truthy_words, split_words. Qed.

(** What a character of a token is. *)
Lemma token_char (text tok : pystr) (ch : ascii) :
  In tok (tokenize text) -> In ch tok ->
  isspace ch = false /\ isalnum ch = true /\
  exists x, In x text /\ ch = lower_char x.
Proof.
  rewrite tokenize_split. intros Htok Hch.
  destruct (split_pieces _ _ Htok) as [[_ Hns] Hsub].
  specialize (Hns _ Hch). specialize (Hsub _ Hch).
  unfold cleanup, lower in Hsub.
  apply in_map_iff in Hsub. destruct Hsub as (y & Hy & Hin).
  apply in_map_iff in Hin. destruct Hin as (x & Hx & Hin).
  subst y. rewrite <- Hy in Hns.
  destruct (clean_char_nonspace _ Hns) as [Heq Hal].
  rewrite Heq in Hy, Hns. subst ch. eauto.
Qed.

(** Lowercasing and cleaning leave the join of tokens as it is. *)
Lemma cleanup_fixes (s : pystr) :
  (forall c, In c s ->
     c = " "%char \/ (isalnum c = true /\ exists x, c = lower_char x)) ->
  cleanup s = s.
Proof.
  unfold cleanup, lower. rewrite map_map.
  induction s as [|c s IH]; intros H; [reflexivity|].
  simpl. rewrite IH by (intros; apply H; right; assumption).
  f_equal.
  destruct (H c (or_introl eq_refl)) as [->|(Hal & x & ->)]; [reflexivity|].
  rewrite lower_char_idem. apply clean_char_alnum. exact Hal.
Qed.

Lemma in_join (sep : pystr) (ws : list pystr) (c : ascii) :
  In c (join sep ws) -> In c sep \/ exists w, In w ws /\ In c w.
Proof.
  induction ws as [|w ws IH]; simpl; [contradiction|].
  destruct ws as [|w2 ws'].
  - intros H. right. exists w. auto.
  - intros H. apply in_app_or in H. destruct H as [H|H].
    + right. exists w. auto.
    + apply in_app_or in H. destruct H as [H|H]; [auto|].
      destruct (IH H) as [?|(w' & Hw' & Hc)]; [auto|].
      right. exists w'. auto.
Qed.

(** ** The tokenizer's properties *)

(** C3 (amended).  For every input text, each token [tokenize] produces is
    non-empty and holds only alphanumeric characters, none of them
    whitespace; the number of tokens is the number of whitespace-separated
    segments of the cleaned text; and when the text is ASCII every token
    matches [^[a-z0-9]+$] and holds no uppercase letter. *)
Theorem tokenize_tokens (text : pystr) :
  (forall tok, In tok (tokenize text) ->
     tok <> [] /\
     forall ch, In ch tok -> isalnum ch = true /\ isspace ch = false) /\
  List.length (tokenize text) = List.length (split (cleanup text)) /\
  (forallb is_ascii text = true ->
   forall tok, In tok (tokenize text) ->
     matches_az09_plus tok = true /\
     forall ch, In ch tok -> isupper ch = false).
Proof.
  split; [|split].
  - intros tok Htok. split.
    + rewrite tokenize_split in Htok.
      apply (split_pieces _ _ Htok).
    + intros ch Hch.
      destruct (token_char _ _ _ Htok Hch) as (Hns & Hal & _).
      auto.
  - rewrite tokenize_split. reflexivity.
  - intros Hascii tok Htok.
    assert (Hclass : forall ch, In ch tok -> is_az09 ch = true).
    { intros ch Hch.
      destruct (token_char _ _ _ Htok Hch) as (_ & Hal & x & Hx & ->).
      pose proof (ascii_alnum_class x) as Hc.
      rewrite (proj1 (forallb_forall _ _) Hascii x Hx), Hal in Hc.
      exact Hc. }
    split.
    + unfold matches_az09_plus. apply andb_true_intro. split.
      * rewrite tokenize_split in Htok.
        destruct (split_pieces _ _ Htok) as [[Hne _] _].
        destruct tok; [congruence|reflexivity].
      * apply forallb_forall. exact Hclass.
    + intros ch Hch. apply az09_not_upper, Hclass, Hch.
Qed.

Lemma tokenize_tokens_witness :
  forallb is_ascii (lit "It's 3 PM, OK?") = true /\
  matches_az09_plus (lit "pm") = true.
Proof.
  split; [reflexivity|].
  apply (proj2 (proj2 (tokenize_tokens (lit "It's 3 PM, OK?")))).
  - reflexivity.
  - vm_compute. auto 6.
Defined.

(** [café] is one token, and its last character is outside [[a-z0-9]]. *)
Lemma tokenize_cafe_not_az09 :
  tokenize Samples.cafe = [Samples.cafe] /\
  matches_az09_plus Samples.cafe = false.
Proof. split; reflexivity. Qed.

(** C8.  Tokenizing the tokens of a text joined with single spaces gives
    the same tokens: [tokenize(" ".join(tokenize(text))) = tokenize(text)]. *)
Theorem tokenize_idempotent (text : pystr) :
  tokenize (join (lit " ") (tokenize text)) = tokenize text.
Proof.
  rewrite (tokenize_split (join _ _)).
  rewrite cleanup_fixes.
  - apply split_join. rewrite tokenize_split. apply split_words.
  - intros c Hc. apply in_join in Hc.
    destruct Hc as [[<-|[]]|(tok & Htok & Hc)]; [left; reflexivity|].
    right.
    destruct (token_char _ _ _ Htok Hc) as (_ & Hal & x & _ & ->).
    eauto.
Qed.

(** ** [str.strip] and the executable the configuration names *)










(** ** The availability probe *)

(** The command line of the probe. *)
Lemma has_ffmpeg_run (w : world) (h : trace) :
  _has_ffmpeg w h =
  (h ++ [EvRun [get_ffmpeg_executable w; lit "-version"]],
   match subprocess_run w h [get_ffmpeg_executable w; lit "-version"] with
   | Return _ => Return true
   | Raise e => if is_FileNotFoundError e then Return false else Raise e
   end).
Proof.
  unfold _has_ffmpeg, try_except_class, try_except, bind, call, ret, raise.
  destruct (subprocess_run w h _) as [cp|e]; [reflexivity|].
  destruct (is_FileNotFoundError e); reflexivity.
Qed.

Lemma is_FileNotFoundError_iff (e : pyexc) :
  is_FileNotFoundError e = true <-> exc_type e = FileNotFoundError.
Proof.
  unfold is_FileNotFoundError.
  destruct (exc_type e); split; congruence.
Qed.

(** C10.  The probe makes one call, the version query.  It returns [True]
    exactly when that call could be launched, whatever status the
    executable exits with, and it returns [False] only when the launch
    fails with [FileNotFoundError]; any other failure of the launch is
    raised to the caller. *)
Theorem has_ffmpeg_ignores_exit_status (w : world) (h : trace) :
  let argv := [get_ffmpeg_executable w; lit "-version"] in
  fst (_has_ffmpeg w h) = h ++ [EvRun argv] /\
  (snd (_has_ffmpeg w h) = Return true <->
   exists rc err,
     subprocess_run w h argv = Return {| returncode := rc; stderr := err |}) /\
  (snd (_has_ffmpeg w h) = Return false <->
   exists e,
     subprocess_run w h argv = Raise e /\ exc_type e = FileNotFoundError) /\
  (forall e, snd (_has_ffmpeg w h) = Raise e <->
     subprocess_run w h argv = Raise e /\ exc_type e <> FileNotFoundError).
Proof.
  intros argv. rewrite has_ffmpeg_run. fold argv. cbn [fst snd].
  split; [reflexivity|].
  destruct (subprocess_run w h argv) as [[rc err]|e].
  - split; [|split].
    + split; [eauto|reflexivity].
    + split; [discriminate|]. intros (e & He & _). discriminate.
    + intros e. split; [discriminate|]. intros [He _]. discriminate.
  - pose proof (is_FileNotFoundError_iff e) as Hfnf.
    destruct (is_FileNotFoundError e) eqn:Hc.
    + split; [|split].
      * split; [discriminate|]. intros (rc & err & He). discriminate.
      * split; [|reflexivity]. intros _. exists e. split; [reflexivity|].
        apply Hfnf. reflexivity.
      * intros e'. split; [discriminate|].
        intros [He Hne]. injection He as <-. exfalso. apply Hne, Hfnf.
        reflexivity.
    + split; [|split].
      * split; [discriminate|]. intros (rc & err & He). discriminate.
      * split; [discriminate|]. intros (e' & He & Hty).
        injection He as <-. apply Hfnf in Hty. discriminate.
      * intros e'. split.
        -- intros He. injection He as <-. split; [reflexivity|].
           intros Hty. apply Hfnf in Hty. discriminate.
        -- intros [He _]. injection He as <-. reflexivity.
Qed.

(** [GET /api/config] reports the flag of the same probe, run after the
    look-up of the executable on the search path. *)
Lemma api_config_available (w : world) (h : trace) :
  let exe := get_ffmpeg_executable w in
  let h1 := if truthy exe then h ++ [EvWhich exe] else h in
  snd (api_config w h) =
  match snd (_has_ffmpeg w h1) with
  | Return ok =>
      Return {| configured := exe;
                resolved := if truthy exe then which w h exe else None;
                available := ok |}
  | Raise e => Raise e
  end.
Proof.
  intros exe h1. unfold api_config. fold exe. subst h1.
  destruct (truthy exe); unfold bind, ret;
    destruct (_has_ffmpeg w _) as [h2 [ok|e]]; reflexivity.
Qed.

(** ** Transcription *)

Lemma remote_text_cons (w : world) (m : pystr) (models : list pystr)
    (text : pystr) :
  remote_text w models text -> remote_text w (m :: models) text.
Proof.
  intros (h & model & resp & Hin & H). exists h, model, resp.
  split; [right; exact Hin|exact H].
Qed.

(** One attempt never raises past its [except]; when it yields a text, the
    text is what the service answered. *)
Lemma attempt_caught (w : world) (audio_path m : pystr) (h : trace) :
  exists h1 r1,
    try_except (attempt w audio_path m)
      (fun _ : pyexc => ret (E:=pyexc) None) h = (h1, Return r1) /\
    match r1 with
    | Some text => remote_text w [m] text
    | None => True
    end.
Proof.
  unfold try_except, attempt, bind, call, ret.
  destruct (open_rb w h audio_path) as [u|e];
    [|eexists _, None; split; [reflexivity|exact I]].
  destruct (create_transcription w _ m) as [tr|e] eqn:Hcreate;
    [|eexists _, None; split; [reflexivity|exact I]].
  match goal with
  | |- context [truthy_opt ?t] =>
      destruct (truthy_opt t) eqn:Ht; [destruct t as [s|] eqn:Hs|]
  end.
  - eexists _, (Some s). split; [reflexivity|].
    eexists _, m, tr. split; [left; reflexivity|].
    split; [exact Hcreate|]. split; [|exact Ht].
    destruct (dict_text tr) as [entry|]; [|left; exact Hs].
    destruct (truthy_opt (attr_text tr)); simpl in Hs.
    + left. exact Hs.
    + right. rewrite Hs. reflexivity.
  - discriminate.
  - eexists _, None. split; [reflexivity|exact I].
Qed.

(** The loop over the model names never raises. *)
Lemma for_models_returns (w : world) (audio_path : pystr)
    (models : list pystr) (h : trace) :
  exists h' r,
    for_models w audio_path models h = (h', Return r) /\
    match r with
    | Some text => remote_text w models text
    | None => True
    end.
Proof.
  revert h. induction models as [|m rest IH]; intros h.
  - exists h, None. split; [reflexivity|exact I].
  - cbn [for_models]. unfold bind at 1.
    destruct (attempt_caught w audio_path m h) as (h1 & r1 & -> & Hr1).
    destruct r1 as [text|].
    + exists h1, (Some text). split; [reflexivity|].
      destruct Hr1 as (h0 & model & resp & [<-|[]] & H).
      exists h0, m, resp. split; [left; reflexivity|exact H].
    + destruct (IH h1) as (h' & r & Heq & Hr).
      exists h', r. split; [exact Heq|].
      destruct r; [apply remote_text_cons; exact Hr|exact I].
Qed.

(** What [transcribe_audio] does with a credential: the set-up of the
    client, the loop, and the strings for the two ways it can fail. *)
Lemma transcribe_audio_with_key (w : world) (audio_path : pystr) (h : trace) :
  truthy_opt (getenv w (lit "OPENAI_API_KEY")) = true ->
  let api_key := the_str (getenv w (lit "OPENAI_API_KEY")) in
  let failed (e : pyexc) := Return (slice_to 500 (error_prefix ++ exc_str e)) in
  snd (transcribe_audio w audio_path h) =
  match import_openai w h with
  | Raise e => failed e
  | Return _ =>
      match new_client w (h ++ [EvImportOpenAI]) api_key with
      | Raise e => failed e
      | Return _ =>
          match snd (for_models w audio_path model_names
                       ((h ++ [EvImportOpenAI]) ++ [EvNewClient api_key])) with
          | Return (Some text) => Return text
          | Return None => Return unavailable
          | Raise e => failed e
          end
      end
  end.
Proof.
  intros Hkey api_key failed. unfold transcribe_audio. rewrite Hkey.
  fold api_key. unfold try_except, bind, call, ret.
  destruct (import_openai w h) as [u|e]; [|reflexivity].
  destruct (new_client w _ api_key) as [c|e]; [|reflexivity].
  fold model_names.
  destruct (for_models w audio_path model_names _) as [h' [[text|]|e]];
    reflexivity.
Qed.

Lemma slice_error_prefix (detail : pystr) :
  slice_to 500 (error_prefix ++ detail) = error_prefix ++ slice_to 479 detail.
Proof.
  unfold slice_to. rewrite firstn_app.
  rewrite (firstn_all2 (n:=500) error_prefix)
    by (apply Nat.leb_le; reflexivity).
  reflexivity.
Qed.

(** C6.  With [OPENAI_API_KEY] unset, [transcribe_audio] returns the fixed
    placeholder string for every audio path and makes no call outside the
    process: the trace is unchanged. *)
Theorem transcribe_audio_placeholder (w : world) (audio_path : pystr)
    (h : trace) :
  getenv w (lit "OPENAI_API_KEY") = None ->
  transcribe_audio w audio_path h =
  (h, Return (lit "hello world this is a sample transcription for sign translation demo")).
Proof.
  intros Hkey. unfold transcribe_audio. rewrite Hkey. reflexivity.
Qed.

Lemma transcribe_audio_placeholder_witness :
  transcribe_audio (Samples.healthy Samples.no_env) (lit "/tmp/x/audio.wav") [] =
  ([], Return (lit "hello world this is a sample transcription for sign translation demo")).
Proof.
  apply (@transcribe_audio_placeholder (Samples.healthy Samples.no_env)).
  reflexivity.
Defined.

(** C5.  With a credential configured, when importing the SDK or building
    the client fails with an exception [e], [transcribe_audio] returns
    ["transcription error: "] followed by [str(e)], the whole string cut to
    500 characters. *)
Theorem transcribe_audio_setup_error (w : world) (audio_path : pystr)
    (h : trace) (e : pyexc) :
  truthy_opt (getenv w (lit "OPENAI_API_KEY")) = true ->
  import_openai w h = Raise e \/
  (import_openai w h = Return tt /\
   new_client w (h ++ [EvImportOpenAI])
     (the_str (getenv w (lit "OPENAI_API_KEY"))) = Raise e) ->
  let result := slice_to 500 (lit "transcription error: " ++ exc_str e) in
  snd (transcribe_audio w audio_path h) = Return result /\
  result = lit "transcription error: " ++ slice_to 479 (exc_str e) /\
  List.length result <= 500.
Proof.
  intros Hkey Hfail result. split; [|split].
  - rewrite (transcribe_audio_with_key w audio_path h Hkey).
    destruct Hfail as [->|[-> ->]]; reflexivity.
  - apply slice_error_prefix.
  - apply firstn_le_length.
Qed.

Lemma transcribe_audio_setup_error_witness :
  snd (transcribe_audio Samples.broken_client (lit "/tmp/x/audio.wav") []) =
  Return (lit "transcription error: The api_key client option must be set").
Proof.
  apply (@transcribe_audio_setup_error Samples.broken_client
           (lit "/tmp/x/audio.wav") [] Samples.bad_key).
  - reflexivity.
  - right. split; reflexivity.
Defined.

(** The outcome of [transcribe_audio] is a returned string. *)
Lemma transcribe_audio_returns (w : world) (audio_path : pystr) (h : trace) :
  exists s, snd (transcribe_audio w audio_path h) = Return s.
Proof.
  destruct (truthy_opt (getenv w (lit "OPENAI_API_KEY"))) eqn:Hkey.
  - rewrite (transcribe_audio_with_key w audio_path h Hkey).
    destruct (import_openai w h) as [u|e]; [|eauto].
    destruct (new_client w _ _) as [c|e]; [|eauto].
    destruct (for_models_returns w audio_path model_names
                ((h ++ [EvImportOpenAI]) ++
                 [EvNewClient (the_str (getenv w (lit "OPENAI_API_KEY")))]))
      as (h' & r & -> & _).
    destruct r; cbn [snd]; eauto.
  - unfold transcribe_audio. rewrite Hkey. cbn [snd ret]. eauto.
Qed.

(** C7.  [transcribe_audio] never raises: for every audio path and every
    world it returns a string, which is the placeholder, the text the
    remote service answered, or one of the two strings that describe a
    failure. *)
Theorem transcribe_audio_never_raises (w : world) (audio_path : pystr)
    (h : trace) :
  exists s,
    snd (transcribe_audio w audio_path h) = Return s /\
    (s = placeholder \/
     remote_text w model_names s \/
     s = unavailable \/
     exists e, s = slice_to 500 (error_prefix ++ exc_str e)).
Proof.
  assert (Hfailed : forall e : pyexc,
             exists s,
               Return (E:=pyexc) (slice_to 500 (error_prefix ++ exc_str e))
               = Return s /\
               (s = placeholder \/ remote_text w model_names s \/
                s = unavailable \/
                exists e', s = slice_to 500 (error_prefix ++ exc_str e'))).
  { intros e. eexists. split; [reflexivity|]. do 3 right. exists e.
    reflexivity. }
  destruct (truthy_opt (getenv w (lit "OPENAI_API_KEY"))) eqn:Hkey.
  - rewrite (transcribe_audio_with_key w audio_path h Hkey).
    destruct (import_openai w h) as [u|e]; [|apply Hfailed].
    destruct (new_client w _ _) as [c|e]; [|apply Hfailed].
    destruct (for_models_returns w audio_path model_names
                ((h ++ [EvImportOpenAI]) ++
                 [EvNewClient (the_str (getenv w (lit "OPENAI_API_KEY")))]))
      as (h' & r & -> & Hr).
    cbn [snd]. destruct r as [text|].
    + exists text. split; [reflexivity|]. right. left. exact Hr.
    + exists unavailable. split; [reflexivity|]. right. right. left.
      reflexivity.
  - exists placeholder. split; [|left; reflexivity].
    unfold transcribe_audio. rewrite Hkey. reflexivity.
Qed.

(** ** The request handler *)

Lemma pystr_eqb_eq (s t : pystr) : PyStr.eqb s t = true <-> s = t.
Proof.
  unfold PyStr.eqb. destruct (list_eq_dec ascii_dec s t); split;
    congruence.
Qed.

Lemma allowed_In (suffix : pystr) :
  allowed suffix = true <-> In suffix ALLOWED_EXTENSIONS.
Proof.
  unfold allowed. rewrite existsb_exists. split.
  - intros (x & Hx & Heq). apply pystr_eqb_eq in Heq. subst x. exact Hx.
  - intros H. exists suffix. split; [exact H|]. apply pystr_eqb_eq.
    reflexivity.
Qed.

(** The pieces [filename.split('.')] returns: the name itself when it has
    no ['.'], and otherwise a non-empty list of pieces followed by the
    substring after the last ['.']. *)
Lemma split_on_dot (s : pystr) :
  match after_last_dot s with
  | None => split_on "."%char s = [s]
  | Some ext => exists init, init <> [] /\ split_on "."%char s = init ++ [ext]
  end.
Proof.
  induction s as [|c s IH]; [reflexivity|].
  cbn [after_last_dot split_on].
  destruct (after_last_dot s) as [ext|].
  - destruct IH as (init & Hne & ->).
    destruct (Ascii.eqb c "."%char).
    + exists ([] :: init). split; [discriminate|reflexivity].
    + destruct init as [|p init]; [congruence|].
      exists ((c :: p) :: init). split; [discriminate|reflexivity].
  - rewrite IH. destruct (Ascii.eqb c "."%char).
    + exists [[]]. split; [discriminate|reflexivity].
    + reflexivity.
Qed.

(** The suffix the handler computes is the extension of the name. *)
Lemma upload_suffix_extension (file : upload) :
  upload_suffix file = extension (upload_name file).
Proof.
  unfold upload_suffix, extension. fold (upload_name file).
  f_equal. pose proof (split_on_dot (upload_name file)) as H.
  destruct (after_last_dot (upload_name file)) as [ext|].
  - destruct H as (init & _ & ->). apply last_last.
  - rewrite H. reflexivity.
Qed.

(** An upload that fails the validation: nothing happens but the 400. *)
Lemma transcribe_rejected (w : world) (file : upload) (h : trace) :
  allowed (upload_suffix file) = false ->
  transcribe w file h = (h, Raise unsupported).
Proof. intros H. unfold transcribe. rewrite H. reflexivity. Qed.

(** An upload that passes the validation, step by step. *)
Lemma transcribe_accepted (w : world) (file : upload) (h : trace) :
  allowed (upload_suffix file) = true ->
  transcribe w file h =
  match mkdtemp w h with
  | Raise e => (h ++ [EvMkdtemp], Raise (Uncaught e))
  | Return td =>
      let h1 := h ++ [EvMkdtemp] in
      let temp_in := temp_in_of td file in
      let h2 := h1 ++ [EvWriteFile temp_in (content file)] in
      let (h3, r) :=
        match write_file w h1 temp_in (content file) with
        | Raise e => (h2, Raise (Uncaught e))
        | Return _ =>
            let (h3, r) := pipeline w file td h2 in
            (h3,
             match r with
             | Return text => Return text
             | Raise e => Raise (HTTPException 500 (exc_str e))
             end)
        end in
      (h3 ++ [EvRmtree td],
       match rmtree w h3 td with
       | Raise e => Raise (Uncaught e)
       | Return _ =>
           match r with
           | Return text => Return (body_of text)
           | Raise x => Raise x
           end
       end)
  end.
Proof.
  intros H. unfold transcribe. rewrite H. cbn [negb].
  unfold with_TemporaryDirectory, lift, try_except, bind, call, ret, raise.
  destruct (mkdtemp w h) as [td|e]; [|reflexivity].
  fold (temp_in_of td file). fold (audio_out_of td).
  destruct (write_file w _ _ _) as [u|e].
  - change (let (h', r) :=
              extract_audio w (temp_in_of td file) (audio_out_of td)
                ((h ++ [EvMkdtemp]) ++
                 [EvWriteFile (temp_in_of td file) (content file)]) in
            match r with
            | Return a => transcribe_audio w (audio_out_of td) h'
            | Raise e => (h', Raise e)
            end)
      with (pipeline w file td
              ((h ++ [EvMkdtemp]) ++
               [EvWriteFile (temp_in_of td file) (content file)])).
    destruct (pipeline w file td _) as [h3 [text|e]];
      destruct (rmtree w h3 td); reflexivity.
  - destruct (rmtree w _ td); reflexivity.
Qed.

(** Transcription never raises, so the block inside the [try] raises what
    the extraction raises. *)
Lemma pipeline_raises (w : world) (file : upload) (td : pystr) (h : trace)
    (e : pyexc) :
  snd (pipeline w file td h) = Raise e <->
  snd (extract_audio w (temp_in_of td file) (audio_out_of td) h) = Raise e.
Proof.
  unfold pipeline, bind.
  destruct (extract_audio w _ _ h) as [h' [u|e']]; cbn [snd].
  - destruct (transcribe_audio_returns w (audio_out_of td) h') as (s & ->).
    split; discriminate.
  - split; intros He; injection He as <-; reflexivity.
Qed.

Lemma enumerate_from_fst (A : Type) (l : list A) (start : nat) :
  map fst (enumerate_from start l) = seq start (List.length l).
Proof.
  revert start. induction l as [|x l IH]; intros start; [reflexivity|].
  simpl. rewrite IH. reflexivity.
Qed.

Lemma enumerate_from_snd (A : Type) (l : list A) (start : nat) :
  map snd (enumerate_from start l) = l.
Proof.
  revert start. induction l as [|x l IH]; intros start; [reflexivity|].
  simpl. rewrite IH. reflexivity.
Qed.

(** The body of a successful response is built from its own text. *)
Lemma transcribe_returns_body (w : world) (file : upload) (h : trace)
    (b : body) :
  snd (transcribe w file h) = Return b -> b = body_of (key_text b).
Proof.
  destruct (allowed (upload_suffix file)) eqn:Hok.
  - rewrite (transcribe_accepted w file h Hok).
    destruct (mkdtemp w h) as [td|e]; [|discriminate].
    cbv zeta.
    destruct (write_file w _ _ _) as [u|e].
    + destruct (pipeline w file td _) as [h3 [text|e]];
        cbn [snd]; destruct (rmtree w h3 td); try discriminate.
      intros Hb. injection Hb as <-. reflexivity.
    + cbn [snd]. destruct (rmtree w _ td); discriminate.
  - rewrite (transcribe_rejected w file h Hok). discriminate.
Qed.

(** ** Traces only grow *)

Lemma extends_ret (E A : Type) (a : A) : extends (ret (E:=E) a).
Proof. intros h. exists []. symmetry. apply app_nil_r. Qed.

Lemma extends_raise (E A : Type) (e : E) : extends (raise (A:=A) e).
Proof. intros h. exists []. symmetry. apply app_nil_r. Qed.

Lemma extends_call (A : Type) (ev : event)
    (oracle : trace -> outcome pyexc A) :
  extends (call ev oracle).
Proof. intros h. exists [ev]. reflexivity. Qed.

Lemma extends_bind (E A B : Type) (m : M E A) (f : A -> M E B) :
  extends m -> (forall a, extends (f a)) -> extends (bind m f).
Proof.
  intros Hm Hf h. unfold bind.
  destruct (Hm h) as (t & Ht). destruct (m h) as [h' [a|e]]; cbn [fst] in *.
  - destruct (Hf a h') as (t' & Ht'). exists (t ++ t').
    rewrite Ht', Ht. symmetry. apply app_assoc.
  - exists t. exact Ht.
Qed.

Lemma extends_try_except (E E' A : Type) (m : M E A)
    (handler : E -> M E' A) :
  extends m -> (forall e, extends (handler e)) ->
  extends (try_except m handler).
Proof.
  intros Hm Hh h. unfold try_except.
  destruct (Hm h) as (t & Ht). destruct (m h) as [h' [a|e]]; cbn [fst] in *.
  - exists t. exact Ht.
  - destruct (Hh e h') as (t' & Ht'). exists (t ++ t').
    rewrite Ht', Ht. symmetry. apply app_assoc.
Qed.

Create HintDb trace_grows.
#[local] Hint Resolve extends_ret extends_raise extends_call : trace_grows.

Ltac grows :=
  repeat first
    [ solve [auto with trace_grows]
    | progress cbv zeta
    | apply extends_bind; [|intros ?]
    | apply extends_try_except; [|intros ?]
    | match goal with
      | |- extends (if ?b then _ else _) => destruct b
      | |- extends (match ?x with _ => _ end) => destruct x
      end ].

Lemma extends_has_ffmpeg (w : world) : extends (_has_ffmpeg w).
Proof. unfold _has_ffmpeg, try_except_class. grows. Qed.

Lemma extends_extract_audio (w : world) (input_path output_path : pystr) :
  extends (extract_audio w input_path output_path).
Proof.
  unfold extract_audio. pose proof (extends_has_ffmpeg w). grows.
Qed.

Lemma extends_for_models (w : world) (audio_path : pystr)
    (models : list pystr) :
  extends (for_models w audio_path models).
Proof.
  induction models as [|m rest IH]; cbn [for_models]; [grows|].
  unfold attempt. grows.
Qed.

Lemma extends_transcribe_audio (w : world) (audio_path : pystr) :
  extends (transcribe_audio w audio_path).
Proof.
  unfold transcribe_audio.
  pose proof (extends_for_models w audio_path). grows.
Qed.

Lemma extends_pipeline (w : world) (file : upload) (td : pystr) :
  extends (pipeline w file td).
Proof.
  unfold pipeline.
  pose proof (extends_extract_audio w). pose proof (extends_transcribe_audio w).
  grows.
Qed.

(** ** The handler's properties *)

(** C2 (amended).  The handler accepts an upload exactly when the
    extension of its name is in the accepted set, where the extension is
    the lowercased substring after the last ['.'] and, for a name without
    ['.'], the lowercased name itself (a missing or empty name counts as
    ["upload"]).  An accepted upload goes on to the allocation of the
    temporary directory and is never answered with the 400; every other
    upload is answered 400 "Unsupported file type" with no call made
    outside the process. *)
Theorem transcribe_validates_extension (w : world) (file : upload)
    (h : trace) :
  let ext := extension (upload_name file) in
  (In ext ALLOWED_EXTENSIONS ->
   exists t r,
     transcribe w file h = ((h ++ [EvMkdtemp]) ++ t, r) /\
     r <> Raise (HTTPException 400 (lit "Unsupported file type"))) /\
  (~ In ext ALLOWED_EXTENSIONS ->
   transcribe w file h =
   (h, Raise (HTTPException 400 (lit "Unsupported file type")))).
Proof.
  intros ext. subst ext. rewrite <- upload_suffix_extension. split.
  - intros Hin. apply allowed_In in Hin.
    rewrite (transcribe_accepted w file h Hin).
    destruct (mkdtemp w h) as [td|e].
    + cbv zeta. destruct (write_file w _ _ _) as [u|e].
      * destruct (extends_pipeline w file td
                    ((h ++ [EvMkdtemp]) ++
                     [EvWriteFile (temp_in_of td file) (content file)]))
          as (t & Ht).
        destruct (pipeline w file td _) as [h3 r]. cbn [fst] in Ht. subst h3.
        eexists (_ :: t ++ [EvRmtree td]), _. split.
        -- f_equal. rewrite <- !app_assoc. reflexivity.
        -- destruct (rmtree w _ td); destruct r; discriminate.
      * eexists [_; EvRmtree td], _. split.
        -- f_equal. rewrite <- !app_assoc. reflexivity.
        -- destruct (rmtree w _ td); discriminate.
    + exists [], (Raise (Uncaught e)). split; [|discriminate].
      rewrite app_nil_r. reflexivity.
  - intros Hout. apply transcribe_rejected.
    destruct (allowed (upload_suffix file)) eqn:Hok; [|reflexivity].
    exfalso. apply Hout, allowed_In, Hok.
Qed.

Lemma transcribe_validates_extension_witness :
  transcribe (Samples.healthy Samples.no_env) Samples.clip_txt [] =
  ([], Raise (HTTPException 400 (lit "Unsupported file type"))).
Proof.
  apply (proj2 (transcribe_validates_extension
                  (Samples.healthy Samples.no_env) Samples.clip_txt [])).
  vm_compute. intros H.
  repeat (destruct H as [H|H]; [discriminate H|]). exact H.
Defined.

(** An upload named [mp4] has no ['.'] in its name, hence no substring
    after a last ['.'], and it is accepted and answered 200. *)
Lemma bare_mp4_accepted :
  upload_name Samples.bare_mp4 = lit "mp4" /\
  after_last_dot (lit "mp4") = None /\
  fst (transcribe (Samples.healthy Samples.no_env) Samples.bare_mp4 []) <> [] /\
  render (snd (transcribe (Samples.healthy Samples.no_env) Samples.bare_mp4 []))
  = Json200 (body_of placeholder).
Proof. repeat split. discriminate. Qed.

(** C1 (amended).  For an upload that passes the validation, when the
    temporary directory is allocated, the upload is written to it and the
    directory is removed without error, any exception raised by the audio
    extraction or the transcription is caught by the handler and answered
    with a 500 whose detail is the text of the exception; when neither
    raises, the answer is the 200 with the tokens; so no exception of
    these steps, nor of the tokenization, leaves the handler unhandled. *)
Theorem transcribe_surfaces_pipeline_errors (w : world) (file : upload)
    (h : trace) (td : pystr) :
  allowed (upload_suffix file) = true ->
  mkdtemp w h = Return td ->
  write_file w (h ++ [EvMkdtemp]) (temp_in_of td file) (content file)
  = Return tt ->
  (forall h', rmtree w h' td = Return tt) ->
  let h2 :=
    (h ++ [EvMkdtemp]) ++ [EvWriteFile (temp_in_of td file) (content file)] in
  (forall e,
     snd (pipeline w file td h2) = Raise e ->
     render (snd (transcribe w file h)) = ErrorDetail 500 (exc_str e)) /\
  (forall text,
     snd (pipeline w file td h2) = Return text ->
     render (snd (transcribe w file h)) = Json200 (body_of text)) /\
  render (snd (transcribe w file h)) <> InternalServerError.
Proof.
  intros Hok Htd Hwrite Hrm h2.
  rewrite (transcribe_accepted w file h Hok), Htd. cbv zeta.
  rewrite Hwrite. fold h2.
  destruct (pipeline w file td h2) as [h3 r]. cbn [snd].
  rewrite Hrm.
  split; [|split].
  - intros e ->. reflexivity.
  - intros text ->. reflexivity.
  - destruct r; discriminate.
Qed.

Lemma transcribe_surfaces_pipeline_errors_witness :
  render (snd (transcribe
                 (Samples.with_run Samples.no_env (Samples.exit_with 1))
                 Samples.clip_mp4 []))
  = ErrorDetail 500 (lit "ffmpeg failed (cmd: ffmpeg): unknown option").
Proof.
  apply (proj1 (@transcribe_surfaces_pipeline_errors
                  (Samples.with_run Samples.no_env (Samples.exit_with 1))
                  Samples.clip_mp4 [] (lit "/tmp/tmpq1w2e3")
                  eq_refl eq_refl eq_refl (fun _ => eq_refl))
               (mkExc RuntimeError
                  (lit "ffmpeg failed (cmd: ffmpeg): unknown option"))).
  reflexivity.
Defined.

(** The upload [clip.mp4] passes the validation; when writing it to the
    temporary directory fails, the exception leaves the handler uncaught
    and the answer carries no detail. *)
Lemma write_failure_escapes_handler :
  allowed (upload_suffix Samples.clip_mp4) = true /\
  snd (transcribe Samples.full_disk Samples.clip_mp4 [])
  = Raise (Uncaught Samples.disk_full) /\
  render (snd (transcribe Samples.full_disk Samples.clip_mp4 []))
  <> ErrorDetail 500 (exc_str Samples.disk_full).
Proof. repeat split. discriminate. Qed.

(** C9.  In every successful response the [words] array pairs each token
    with its position: for [n] tokens the [i] values are [0 .. n-1] in
    order, and the [w] values are the tokens of the text in their order. *)
Theorem transcribe_words_indexed (w : world) (file : upload) (h : trace)
    (b : body) :
  snd (transcribe w file h) = Return b ->
  let n := List.length (tokenize (key_text b)) in
  List.length (key_words b) = n /\
  map key_i (key_words b) = seq 0 n /\
  map key_w (key_words b) = tokenize (key_text b).
Proof.
  intros Hb n. apply transcribe_returns_body in Hb.
  assert (Hi : map key_i (key_words b) = seq 0 n).
  { rewrite Hb. cbn [body_of key_words key_text]. rewrite map_map.
    cbn [key_i]. apply enumerate_from_fst. }
  split; [|split].
  - rewrite <- (length_map key_i), Hi. apply length_seq.
  - exact Hi.
  - rewrite Hb at 1. cbn [body_of key_words key_text]. rewrite map_map.
    cbn [key_w]. rewrite Hb. apply enumerate_from_snd.
Qed.

Lemma transcribe_words_indexed_witness :
  let b := body_of placeholder in
  List.length (key_words b) = 11 /\
  map key_i (key_words b) = [0; 1; 2; 3; 4; 5; 6; 7; 8; 9; 10] /\
  map key_w (key_words b) = tokenize placeholder.
Proof.
  apply (@transcribe_words_indexed (Samples.healthy Samples.no_env)
           Samples.wav [] (body_of placeholder)).
  reflexivity.
Defined.

(** * Further properties of the code *)

(** ** The tokenizer *)

Lemma isalnum_lower_char (c : ascii) : isalnum (lower_char c) = isalnum c.
Proof. each_char c; reflexivity. Qed.

Lemma split_concat (s : pystr) :
  List.concat (split s) = filter (fun c => negb (isspace c)) s.
Proof.
  induction s as [|c s IH]; [reflexivity|].
  cbn [split filter]. destruct (isspace c) eqn:Hc; cbn [negb]; [exact IH|].
  destruct s as [|d s']; [reflexivity|].
  destruct (isspace d) eqn:Hd.
  - cbn [List.concat app]. rewrite IH. reflexivity.
  - rewrite <- IH. destruct (split (d :: s')); reflexivity.
Qed.

Lemma filter_clean_chars (l : pystr) :
  filter (fun c => negb (isspace c)) (map clean_char l) = filter isalnum l.
Proof.
  induction l as [|c l IH]; [reflexivity|].
  cbn [map filter]. rewrite IH. unfold clean_char.
  pose proof (alnum_or_space c) as Hdis.
  destruct (isalnum c); cbn [orb].
  - destruct (isspace c); [discriminate|reflexivity].
  - destruct (isspace c) eqn:Hs; [rewrite Hs|rewrite isspace_space];
      reflexivity.
Qed.

(** The tokens, put end to end, are the alphanumeric characters of the
    lowercased text, all of them and in their order: the tokenizer drops
    only what is not alphanumeric and reorders nothing. *)
Theorem tokenize_keeps_alnum (text : pystr) :
  List.concat (tokenize text) = filter isalnum (lower text).
Proof.
  rewrite tokenize_split, split_concat. apply filter_clean_chars.
Qed.

Lemma concat_words_nil (ws : list pystr) :
  Forall word ws -> List.concat ws = [] -> ws = [].
Proof.
  intros Hws Hc. destruct Hws as [|w ws [Hne _] _]; [reflexivity|].
  destruct w; [congruence|discriminate].
Qed.

Lemma filter_nil_forallb (A : Type) (f : A -> bool) (l : list A) :
  filter f l = [] <-> forallb (fun x => negb (f x)) l = true.
Proof.
  induction l as [|x l IH]; [split; reflexivity|].
  cbn [filter forallb]. destruct (f x); cbn [negb andb].
  - split; discriminate.
  - exact IH.
Qed.

(** A text has no token exactly when it has no alphanumeric character:
    the empty text, blanks and punctuation give the empty list. *)
Theorem tokenize_nil_iff (text : pystr) :
  tokenize text = [] <-> forallb (fun c => negb (isalnum c)) text = true.
Proof.
  rewrite <- filter_nil_forallb.
  assert (Hf : filter isalnum (lower text) = []
               <-> filter isalnum text = []).
  { rewrite !filter_nil_forallb. unfold lower.
    induction text as [|c text IH]; [reflexivity|].
    cbn [map forallb]. rewrite isalnum_lower_char.
    destruct (isalnum c); cbn [negb andb]; [reflexivity|exact IH]. }
  assert (Hk : List.concat (tokenize text) = filter isalnum (lower text)).
  { rewrite tokenize_split, split_concat. apply filter_clean_chars. }
  rewrite <- Hf, <- Hk. split.
  - intros ->. reflexivity.
  - apply concat_words_nil. rewrite tokenize_split. apply split_words.
Qed.

Lemma split_starts (c : ascii) (s : pystr) :
  isspace c = false -> split (c :: s) <> [].
Proof.
  intros Hc. cbn [split]. rewrite Hc.
  destruct s as [|d s']; [discriminate|].
  destruct (isspace d); [discriminate|].
  destruct (split (d :: s')); discriminate.
Qed.

(** [split] at a character that is not whitespace, by what follows it. *)
Lemma split_cons_nonspace (c : ascii) (s : pystr) :
  isspace c = false ->
  split (c :: s) =
  match s with
  | [] => [[c]]
  | d :: _ =>
      if isspace d then [c] :: split s
      else match split s with
           | w :: ws => (c :: w) :: ws
           | [] => [[c]]
           end
  end.
Proof. intros Hc. destruct s; simpl; rewrite Hc; reflexivity. Qed.

(** [split] of two strings around a whitespace character. *)
Lemma split_app_space (s t : pystr) (d : ascii) :
  isspace d = true -> split (s ++ d :: t) = split s ++ split t.
Proof.
  intros Hd. induction s as [|c s IH].
  - cbn [app]. rewrite split_cons_space by exact Hd. reflexivity.
  - destruct (isspace c) eqn:Hc.
    + cbn [app]. rewrite !split_cons_space by exact Hc. exact IH.
    + change ((c :: s) ++ d :: t) with (c :: (s ++ d :: t)).
      rewrite (@split_cons_nonspace c (s ++ d :: t) Hc).
      rewrite (@split_cons_nonspace c s Hc). rewrite IH.
      destruct s as [|e s'].
      * cbn [app]. rewrite Hd. reflexivity.
      * cbn [app]. destruct (isspace e) eqn:He; [reflexivity|].
        pose proof (@split_starts e s' He) as Hne.
        destruct (split (e :: s')) as [|w0 ws]; [congruence|reflexivity].
Qed.

(** In an ASCII text, a character that is not alphanumeric separates
    tokens: the tokens of a text around it are the tokens of the part
    before it followed by the tokens of the part after it. *)
Theorem tokenize_separator (a b : pystr) (c : ascii) :
  forallb is_ascii (a ++ c :: b) = true ->
  isalnum c = false ->
  tokenize (a ++ c :: b) = tokenize a ++ tokenize b.
Proof.
  intros _ Hc. rewrite !tokenize_split. unfold cleanup, lower.
  rewrite !map_app. cbn [map]. apply split_app_space.
  unfold clean_char. rewrite isalnum_lower_char, Hc. cbn [orb].
  destruct (isspace (lower_char c)) eqn:Hs; [exact Hs|reflexivity].
Qed.

Lemma tokenize_separator_witness :
  tokenize (lit "sign" ++ "-"%char :: lit "translation") =
  [lit "sign"; lit "translation"].
Proof.
  apply (@tokenize_separator (lit "sign") (lit "translation") "-"%char).
  - reflexivity.
  - reflexivity.
Defined.

(** Tokenizing ignores case: texts that agree once lowercased have the
    same tokens, and lowercasing a text first changes nothing. *)
Theorem tokenize_ignores_case (a b : pystr) :
  (lower a = lower b -> tokenize a = tokenize b) /\
  tokenize (lower a) = tokenize a.
Proof.
  split.
  - intros H. unfold tokenize, cleanup. rewrite H. reflexivity.
  - assert (H : lower (lower a) = lower a).
    { unfold lower. rewrite map_map. apply map_ext. intros c.
      apply lower_char_idem. }
    unfold tokenize, cleanup. rewrite H. reflexivity.
Qed.

Lemma tokenize_ignores_case_witness :
  tokenize (lit "HELLO World") = tokenize (lit "hello wORLD").
Proof.
  apply (proj1 (tokenize_ignores_case (lit "HELLO World") (lit "hello wORLD"))).
  reflexivity.
Defined.

(** ** Audio extraction *)

(** The two calls of [extract_audio] and what it makes of their answers. *)
Lemma extract_audio_run (w : world) (input_path output_path : pystr)
    (h : trace) :
  extract_audio w input_path output_path h =
  match subprocess_run w h (probe_argv w) with
  | Raise e =>
      (h ++ [EvRun (probe_argv w)],
       Raise (if is_FileNotFoundError e
              then mkExc RuntimeError ffmpeg_not_found else e))
  | Return _ =>
      ((h ++ [EvRun (probe_argv w)])
         ++ [EvRun (conversion_argv w input_path output_path)],
       match subprocess_run w (h ++ [EvRun (probe_argv w)])
               (conversion_argv w input_path output_path) with
       | Raise e => Raise e
       | Return result =>
           if (returncode result =? 0)%Z then Return tt
           else Raise (mkExc RuntimeError
                         (ffmpeg_failed (get_ffmpeg_executable w)
                            (stderr result)))
       end)
  end.
Proof.
  unfold extract_audio, bind at 1. rewrite has_ffmpeg_run.
  fold (probe_argv w).
  destruct (subprocess_run w h (probe_argv w)) as [cp|e].
  - cbn [negb]. unfold bind, call, ret, raise.
    fold (conversion_argv w input_path output_path).
    destruct (subprocess_run w _ (conversion_argv w input_path output_path))
      as [result|e]; [|reflexivity].
    unfold ffmpeg_failed. destruct (returncode result =? 0)%Z; reflexivity.
  - destruct (is_FileNotFoundError e); reflexivity.
Qed.

(** [extract_audio] returns exactly when the version query could be
    launched and the conversion, launched after it, exits with status 0;
    it has then made those two calls and no other. *)
Theorem extract_audio_succeeds_iff (w : world)
    (input_path output_path : pystr) (h : trace) :
  let h1 := h ++ [EvRun (probe_argv w)] in
  let cmd := conversion_argv w input_path output_path in
  (snd (extract_audio w input_path output_path h) = Return tt <->
   (exists cp, subprocess_run w h (probe_argv w) = Return cp) /\
   (exists err,
      subprocess_run w h1 cmd = Return {| returncode := 0; stderr := err |})) /\
  (snd (extract_audio w input_path output_path h) = Return tt ->
   fst (extract_audio w input_path output_path h) = h1 ++ [EvRun cmd]).
Proof.
  intros h1 cmd. rewrite extract_audio_run. fold h1 cmd.
  destruct (subprocess_run w h (probe_argv w)) as [cp|e]; cbn [fst snd].
  - split; [|reflexivity].
    destruct (subprocess_run w h1 cmd) as [[rc err]|e]; cbn [returncode].
    + destruct (rc =? 0)%Z eqn:Hrc.
      * apply Z.eqb_eq in Hrc. subst rc. split; [eauto|reflexivity].
      * split; [discriminate|]. intros (_ & err' & He).
        injection He as -> _. discriminate.
    + split; [discriminate|]. intros (_ & err' & He). discriminate.
  - split; [|discriminate].
    split; [discriminate|]. intros ((cp & He) & _). discriminate.
Qed.

(** When the executable is not found, [extract_audio] raises the
    "ffmpeg not found" error that names [FFMPEG_PATH], and the conversion
    is never launched: the version query is its only call. *)
Theorem extract_audio_tool_missing (w : world)
    (input_path output_path : pystr) (h : trace) (e : pyexc) :
  subprocess_run w h (probe_argv w) = Raise e ->
  exc_type e = FileNotFoundError ->
  extract_audio w input_path output_path h =
  (h ++ [EvRun (probe_argv w)],
   Raise (mkExc RuntimeError
            (lit "ffmpeg not found. Install it or set FFMPEG_PATH to full executable path (e.g. C:/ffmpeg/bin/ffmpeg.exe)."))).
Proof.
  intros Hrun Hty. rewrite extract_audio_run, Hrun.
  apply is_FileNotFoundError_iff in Hty. rewrite Hty. reflexivity.
Qed.

Lemma extract_audio_tool_missing_witness :
  snd (extract_audio
         (Samples.with_run Samples.no_env (fun _ => Raise Hosts.missing))
         (lit "/tmp/t/input.mp4") (lit "/tmp/t/audio.wav") [])
  = Raise (mkExc RuntimeError ffmpeg_not_found).
Proof.
  rewrite (@extract_audio_tool_missing
             (Samples.with_run Samples.no_env (fun _ => Raise Hosts.missing))
             (lit "/tmp/t/input.mp4") (lit "/tmp/t/audio.wav") []
             Hosts.missing eq_refl eq_refl).
  reflexivity.
Defined.

(** When the conversion exits with a status other than 0, [extract_audio]
    raises a [RuntimeError] whose message names the executable and holds
    at most the first 500 characters of the error stream. *)
Theorem extract_audio_nonzero_exit (w : world)
    (input_path output_path : pystr) (h : trace)
    (cp : completed_process) (rc : Z) (err : pystr) :
  subprocess_run w h (probe_argv w) = Return cp ->
  subprocess_run w (h ++ [EvRun (probe_argv w)])
    (conversion_argv w input_path output_path)
  = Return {| returncode := rc; stderr := err |} ->
  rc <> 0%Z ->
  let exe := get_ffmpeg_executable w in
  let msg := lit "ffmpeg failed (cmd: " ++ exe ++ lit "): " ++ firstn 500 err in
  snd (extract_audio w input_path output_path h)
  = Raise (mkExc RuntimeError msg) /\
  List.length msg <= 523 + List.length exe /\
  (List.length err <= 500 ->
   msg = lit "ffmpeg failed (cmd: " ++ exe ++ lit "): " ++ err).
Proof.
  intros Hprobe Hrun Hrc exe msg. split; [|split].
  - rewrite extract_audio_run, Hprobe, Hrun. cbn [snd returncode stderr].
    apply Z.eqb_neq in Hrc. rewrite Hrc. reflexivity.
  - subst msg. rewrite !length_app.
    pose proof (firstn_le_length 500 err) as Hle.
    change (List.length (lit "ffmpeg failed (cmd: ")) with 20.
    change (List.length (lit "): ")) with 3. lia.
  - intros Hlen. subst msg. rewrite firstn_all2 by exact Hlen. reflexivity.
Qed.

Lemma extract_audio_nonzero_exit_witness :
  snd (extract_audio
         (Samples.with_run Samples.no_env (Samples.exit_with 1))
         (lit "/tmp/t/input.mp4") (lit "/tmp/t/audio.wav") [])
  = Raise (mkExc RuntimeError
             (lit "ffmpeg failed (cmd: ffmpeg): unknown option")).
Proof.
  apply (proj1 (@extract_audio_nonzero_exit
                  (Samples.with_run Samples.no_env (Samples.exit_with 1))
                  (lit "/tmp/t/input.mp4") (lit "/tmp/t/audio.wav") []
                  {| returncode := 1; stderr := lit "unknown option" |}
                  1%Z (lit "unknown option") eq_refl eq_refl
                  ltac:(discriminate))).
Defined.

(** What [extract_audio] raises is one of its two [RuntimeError]s or the
    exception [subprocess.run] raised, unchanged: from the version query
    when it is not a [FileNotFoundError], from the conversion whatever its
    class. *)
Theorem extract_audio_raises (w : world) (input_path output_path : pystr)
    (h : trace) (e : pyexc) :
  snd (extract_audio w input_path output_path h) = Raise e ->
  e = mkExc RuntimeError ffmpeg_not_found \/
  (exists err, e = mkExc RuntimeError
                     (ffmpeg_failed (get_ffmpeg_executable w) err)) \/
  (subprocess_run w h (probe_argv w) = Raise e /\
   exc_type e <> FileNotFoundError) \/
  subprocess_run w (h ++ [EvRun (probe_argv w)])
    (conversion_argv w input_path output_path) = Raise e.
Proof.
  rewrite extract_audio_run.
  destruct (subprocess_run w h (probe_argv w)) as [cp|e0]; cbn [snd].
  - destruct (subprocess_run w _ _) as [result|e1].
    + destruct (returncode result =? 0)%Z; [discriminate|].
      intros He. injection He as <-. right. left. eauto.
    + intros He. injection He as <-. do 3 right. reflexivity.
  - destruct (is_FileNotFoundError e0) eqn:Hfnf.
    + intros He. injection He as <-. left. reflexivity.
    + intros He. injection He as <-. right. right. left.
      split; [reflexivity|]. intros Hty.
      apply is_FileNotFoundError_iff in Hty. congruence.
Qed.

Lemma extract_audio_raises_witness :
  subprocess_run (Samples.with_run Samples.no_env Hosts.probe_only)
    [EvRun (probe_argv (Samples.with_run Samples.no_env Hosts.probe_only))]
    (conversion_argv (Samples.with_run Samples.no_env Hosts.probe_only)
       (lit "/tmp/t/input.mp4") (lit "/tmp/t/audio.wav"))
  = Raise Hosts.no_exec.
Proof.
  destruct (@extract_audio_raises
              (Samples.with_run Samples.no_env Hosts.probe_only)
              (lit "/tmp/t/input.mp4") (lit "/tmp/t/audio.wav") []
              Hosts.no_exec eq_refl)
    as [H|[(err & H)|[[H _]|H]]].
  - discriminate H.
  - discriminate H.
  - discriminate H.
  - exact H.
Defined.

(** ** Transcription: the credential, the two model names, the answers *)

(** An empty [OPENAI_API_KEY] is no credential: as when the variable is
    unset, the placeholder is returned and nothing outside the process is
    touched. *)
Theorem transcribe_audio_blank_key (w : world) (audio_path : pystr)
    (h : trace) :
  truthy_opt (getenv w (lit "OPENAI_API_KEY")) = false ->
  transcribe_audio w audio_path h = (h, Return placeholder).
Proof. intros Hkey. unfold transcribe_audio. rewrite Hkey. reflexivity. Qed.

Lemma transcribe_audio_blank_key_witness :
  transcribe_audio
    (Samples.healthy (Samples.env1 (lit "OPENAI_API_KEY") []))
    (lit "/tmp/t/audio.wav") []
  = ([], Return placeholder).
Proof.
  apply (@transcribe_audio_blank_key
           (Samples.healthy (Samples.env1 (lit "OPENAI_API_KEY") []))).
  reflexivity.
Defined.

Lemma remote_text_truthy (w : world) (models : list pystr) (text : pystr) :
  remote_text w models text -> truthy text = true.
Proof. intros (h & m & resp & _ & _ & _ & H). exact H. Qed.

(** [transcribe_audio] never returns the empty string. *)
Lemma transcribe_audio_nonempty (w : world) (audio_path : pystr)
    (h : trace) :
  exists s,
    snd (transcribe_audio w audio_path h) = Return s /\ truthy s = true.
Proof.
  destruct (truthy_opt (getenv w (lit "OPENAI_API_KEY"))) eqn:Hkey.
  - rewrite (transcribe_audio_with_key w audio_path h Hkey).
    assert (Hfailed : forall e : pyexc,
               exists s,
                 Return (E:=pyexc) (slice_to 500 (error_prefix ++ exc_str e))
                 = Return s /\ truthy s = true).
    { intros e. eexists. split; [reflexivity|].
      rewrite slice_error_prefix. reflexivity. }
    destruct (import_openai w h) as [u|e]; [|apply Hfailed].
    destruct (new_client w _ _) as [c|e]; [|apply Hfailed].
    destruct (for_models_returns w audio_path model_names
                ((h ++ [EvImportOpenAI]) ++
                 [EvNewClient (the_str (getenv w (lit "OPENAI_API_KEY")))]))
      as (h' & r & -> & Hr).
    cbn [snd]. destruct r as [text|].
    + exists text. split; [reflexivity|].
      apply (remote_text_truthy Hr).
    + exists unavailable. split; reflexivity.
  - unfold transcribe_audio. rewrite Hkey.
    exists placeholder. split; reflexivity.
Qed.

(** One attempt whose file opens and whose request is answered: the text
    attribute when it is not empty, and otherwise the text entry of a
    [dict]. *)
Lemma attempt_answered (w : world) (audio_path m : pystr) (h : trace)
    (resp : api_response) :
  open_rb w h audio_path = Return tt ->
  create_transcription w (h ++ [EvOpenRead audio_path]) m = Return resp ->
  attempt w audio_path m h =
  ((h ++ [EvOpenRead audio_path]) ++ [EvCreateTranscription m],
   Return
     (let text :=
        match dict_text resp with
        | Some entry =>
            if truthy_opt (attr_text resp) then attr_text resp else entry
        | None => attr_text resp
        end in
      if truthy_opt text then Some (the_str text) else None)).
Proof.
  intros Hopen Hcreate. unfold attempt, bind, call, ret.
  rewrite Hopen, Hcreate. cbv zeta.
  destruct (dict_text resp) as [entry|];
    destruct (truthy_opt (attr_text resp)) eqn:Ha; cbn [negb];
    try rewrite Ha;
    first
      [ reflexivity
      | match goal with
        | |- context [truthy_opt ?t] => destruct (truthy_opt t); reflexivity
        end ].
Qed.

(** With a credential and a client, a non-empty text attribute in the
    answer for the first model name is what [transcribe_audio] returns,
    whatever else the answer holds, and the second model name is never
    tried: one file is opened and one request is made. *)
Theorem transcribe_audio_first_model (w : world) (audio_path : pystr)
    (h : trace) (resp : api_response) (text : pystr) :
  truthy_opt (getenv w (lit "OPENAI_API_KEY")) = true ->
  let api_key := the_str (getenv w (lit "OPENAI_API_KEY")) in
  let h2 := (h ++ [EvImportOpenAI]) ++ [EvNewClient api_key] in
  import_openai w h = Return tt ->
  new_client w (h ++ [EvImportOpenAI]) api_key = Return tt ->
  open_rb w h2 audio_path = Return tt ->
  create_transcription w (h2 ++ [EvOpenRead audio_path])
    (lit "gpt-4o-transcribe") = Return resp ->
  attr_text resp = Some text ->
  truthy text = true ->
  transcribe_audio w audio_path h =
  ((h2 ++ [EvOpenRead audio_path])
     ++ [EvCreateTranscription (lit "gpt-4o-transcribe")],
   Return text).
Proof.
  intros Hkey api_key h2 Himport Hclient Hopen Hcreate Hattr Htext.
  unfold transcribe_audio. rewrite Hkey. fold api_key.
  unfold try_except, bind at 1 2, call. rewrite Himport, Hclient.
  fold h2. cbn [for_models]. unfold bind at 1 2, try_except.
  rewrite (attempt_answered w audio_path _ h2 Hopen Hcreate).
  rewrite Hattr.
  destruct (dict_text resp);
    repeat first [progress cbn [truthy_opt the_str] | rewrite Htext];
    reflexivity.
Qed.

Lemma transcribe_audio_first_model_witness :
  transcribe_audio (Samples.healthy Hosts.key_env) (lit "/tmp/t/audio.wav") []
  = ([EvImportOpenAI; EvNewClient (lit "sk-test");
      EvOpenRead (lit "/tmp/t/audio.wav");
      EvCreateTranscription (lit "gpt-4o-transcribe")],
     Return (lit "Good morning, everyone!")).
Proof.
  apply (@transcribe_audio_first_model (Samples.healthy Hosts.key_env)
           (lit "/tmp/t/audio.wav") []
           {| attr_text := Some (lit "Good morning, everyone!");
              dict_text := None |}
           (lit "Good morning, everyone!")
           eq_refl eq_refl eq_refl eq_refl eq_refl eq_refl eq_refl).
Defined.

(** An answer that is a [dict]: when its text attribute is missing or
    empty, the non-empty [text] entry is what [transcribe_audio]
    returns. *)
Theorem transcribe_audio_dict_answer (w : world) (audio_path : pystr)
    (h : trace) (resp : api_response) (text : pystr) :
  truthy_opt (getenv w (lit "OPENAI_API_KEY")) = true ->
  let api_key := the_str (getenv w (lit "OPENAI_API_KEY")) in
  let h2 := (h ++ [EvImportOpenAI]) ++ [EvNewClient api_key] in
  import_openai w h = Return tt ->
  new_client w (h ++ [EvImportOpenAI]) api_key = Return tt ->
  open_rb w h2 audio_path = Return tt ->
  create_transcription w (h2 ++ [EvOpenRead audio_path])
    (lit "gpt-4o-transcribe") = Return resp ->
  truthy_opt (attr_text resp) = false ->
  dict_text resp = Some (Some text) ->
  truthy text = true ->
  snd (transcribe_audio w audio_path h) = Return text.
Proof.
  intros Hkey api_key h2 Himport Hclient Hopen Hcreate Hattr Hdict Htext.
  unfold transcribe_audio. rewrite Hkey. fold api_key.
  unfold try_except, bind at 1 2, call. rewrite Himport, Hclient.
  fold h2. cbn [for_models]. unfold bind at 1 2, try_except.
  rewrite (attempt_answered w audio_path _ h2 Hopen Hcreate).
  rewrite Hdict, Hattr.
  repeat first [progress cbn [truthy_opt the_str] | rewrite Htext].
  reflexivity.
Qed.

Lemma transcribe_audio_dict_answer_witness :
  snd (transcribe_audio Hosts.dict_answer (lit "/tmp/t/audio.wav") [])
  = Return (lit "thank you").
Proof.
  apply (@transcribe_audio_dict_answer Hosts.dict_answer
           (lit "/tmp/t/audio.wav") []
           {| attr_text := None; dict_text := Some (Some (lit "thank you")) |}
           (lit "thank you")
           eq_refl eq_refl eq_refl eq_refl eq_refl eq_refl eq_refl eq_refl).
Defined.

(** An attempt that fails or is answered without a text lets the loop go
    on. *)
Lemma attempt_without_text (w : world) (audio_path m : pystr) (h : trace) :
  (forall h' model,
     match create_transcription w h' model with
     | Raise _ => True
     | Return resp =>
         truthy_opt (attr_text resp) = false /\
         match dict_text resp with
         | Some entry => truthy_opt entry = false
         | None => True
         end
     end) ->
  snd (try_except (attempt w audio_path m)
         (fun _ : pyexc => ret (E:=pyexc) None) h) = Return None.
Proof.
  intros Hno. unfold try_except, attempt, bind, call, ret.
  destruct (open_rb w h audio_path) as [u|e]; [|reflexivity].
  specialize (Hno (h ++ [EvOpenRead audio_path]) m).
  destruct (create_transcription w _ m) as [resp|e]; [|reflexivity].
  destruct Hno as [Ha Hd]. cbv zeta. rewrite Ha. cbn [negb].
  destruct (dict_text resp) as [entry|]; [rewrite Hd|rewrite Ha];
    reflexivity.
Qed.

(** With a credential and a client, when no request is answered with a
    non-empty text, whether it fails or answers without one,
    [transcribe_audio] returns the "transcription unavailable" string: the
    failures of the attempts are not reported. *)
Theorem transcribe_audio_unavailable (w : world) (audio_path : pystr)
    (h : trace) :
  truthy_opt (getenv w (lit "OPENAI_API_KEY")) = true ->
  import_openai w h = Return tt ->
  new_client w (h ++ [EvImportOpenAI])
    (the_str (getenv w (lit "OPENAI_API_KEY"))) = Return tt ->
  (forall h' model,
     match create_transcription w h' model with
     | Raise _ => True
     | Return resp =>
         truthy_opt (attr_text resp) = false /\
         match dict_text resp with
         | Some entry => truthy_opt entry = false
         | None => True
         end
     end) ->
  snd (transcribe_audio w audio_path h)
  = Return (lit "transcription unavailable (OpenAI models not reachable)").
Proof.
  intros Hkey Himport Hclient Hno.
  rewrite (transcribe_audio_with_key w audio_path h Hkey).
  rewrite Himport, Hclient.
  assert (Hloop : forall models h0,
             snd (for_models w audio_path models h0) = Return None).
  { induction models as [|m rest IH]; intros h0; [reflexivity|].
    cbn [for_models]. unfold bind at 1.
    pose proof (@attempt_without_text w audio_path m h0 Hno) as Hatt.
    destruct (try_except (attempt w audio_path m) _ h0) as [h1 r].
    cbn [snd] in Hatt. subst r. apply IH. }
  rewrite Hloop. reflexivity.
Qed.

Lemma transcribe_audio_unavailable_witness :
  snd (transcribe_audio Hosts.service_down (lit "/tmp/t/audio.wav") [])
  = Return unavailable.
Proof.
  apply (@transcribe_audio_unavailable Hosts.service_down
           (lit "/tmp/t/audio.wav") [] eq_refl eq_refl eq_refl).
  intros h' model. exact I.
Defined.

Lemma requests_app (t t' : trace) :
  requests (t ++ t') = requests t + requests t'.
Proof.
  induction t as [|ev t IH]; [reflexivity|].
  destruct ev; cbn [app requests]; rewrite IH; reflexivity.
Qed.

Lemma for_models_calls (w : world) (audio_path : pystr)
    (models : list pystr) (h : trace) :
  exists t,
    fst (for_models w audio_path models h) = h ++ t /\
    List.length t <= 2 * List.length models /\
    requests t <= List.length models.
Proof.
  revert h. induction models as [|m rest IH]; intros h.
  - exists []. cbn. rewrite app_nil_r. auto.
  - cbn [for_models]. unfold bind at 1.
    assert (Hatt : exists t1,
               fst (try_except (attempt w audio_path m)
                      (fun _ : pyexc => ret (E:=pyexc) None) h) = h ++ t1 /\
               List.length t1 <= 2 /\ requests t1 <= 1).
    { unfold try_except, attempt, bind, call, ret.
      destruct (open_rb w h audio_path) as [u|e].
      - destruct (create_transcription w _ m) as [resp|e].
        + exists [EvOpenRead audio_path; EvCreateTranscription m].
          split; [|cbn; auto].
          cbv zeta.
          match goal with
          | |- context [if ?b then _ else _] => destruct b
          end; cbn [fst]; rewrite <- app_assoc; reflexivity.
        + exists [EvOpenRead audio_path; EvCreateTranscription m].
          split; [|cbn; auto].
          cbn [fst]. rewrite <- app_assoc. reflexivity.
      - exists [EvOpenRead audio_path]. split; [reflexivity|cbn; auto]. }
    destruct Hatt as (t1 & Ht1 & Hlen1 & Hreq1).
    destruct (try_except (attempt w audio_path m) _ h) as [h1 [[text|]|e]];
      cbn [fst] in Ht1; subst h1.
    + exists t1. split; [reflexivity|]. cbn [List.length]. lia.
    + destruct (IH (h ++ t1)) as (t2 & Ht2 & Hlen2 & Hreq2).
      exists (t1 ++ t2). rewrite Ht2, app_assoc, length_app, requests_app.
      split; [reflexivity|]. cbn [List.length]. lia.
    + exists t1. split; [reflexivity|]. cbn [List.length]. lia.
Qed.

(** [transcribe_audio] makes at most six calls outside the process, of
    which at most two are transcription requests, one per model name:
    nothing is retried. *)
Theorem transcribe_audio_calls (w : world) (audio_path : pystr) (h : trace) :
  exists t,
    fst (transcribe_audio w audio_path h) = h ++ t /\
    List.length t <= 6 /\ requests t <= 2.
Proof.
  unfold transcribe_audio.
  destruct (truthy_opt (getenv w (lit "OPENAI_API_KEY"))).
  - unfold try_except, bind at 1 2, call.
    destruct (import_openai w h) as [u|e].
    + destruct (new_client w _ _) as [c|e].
      * unfold bind.
        match goal with
        | |- context [for_models w audio_path ?ms ?h0] =>
            destruct (for_models_calls w audio_path ms h0)
              as (t & Ht & Hlen & Hreq);
            destruct (for_models w audio_path ms h0) as [h' [[text|]|e]]
        end; cbn [fst] in Ht; subst h';
          (eexists (_ :: _ :: t); split;
           [unfold ret; cbn [fst]; rewrite <- !app_assoc; reflexivity
           |cbn [List.length requests] in *; split; lia]).
      * exists [EvImportOpenAI;
                EvNewClient (the_str (getenv w (lit "OPENAI_API_KEY")))].
        split; [|cbn; split; lia].
        unfold ret. cbn [fst]. rewrite <- app_assoc. reflexivity.
    + exists [EvImportOpenAI]. split; [reflexivity|cbn; split; lia].
  - exists []. split; [|cbn; split; lia].
    unfold ret. cbn [fst]. rewrite app_nil_r. reflexivity.
Qed.

(** ** The handler: the temporary directory, the stored upload, the
    answers *)

(** The calls of an accepted request whose directory is allocated: the
    allocation, the write of the upload, what extraction and
    transcription do, and the removal of the directory. *)
Lemma transcribe_trace (w : world) (file : upload) (h : trace) (td : pystr) :
  allowed (upload_suffix file) = true ->
  mkdtemp w h = Return td ->
  exists t,
    fst (transcribe w file h) =
    h ++ EvMkdtemp :: EvWriteFile (temp_in_of td file) (content file)
           :: t ++ [EvRmtree td].
Proof.
  intros Hok Htd. rewrite (transcribe_accepted w file h Hok), Htd. cbv zeta.
  destruct (write_file w _ _ _) as [u|e].
  - destruct (extends_pipeline w file td
                ((h ++ [EvMkdtemp]) ++
                 [EvWriteFile (temp_in_of td file) (content file)]))
      as (t & Ht).
    destruct (pipeline w file td _) as [h3 r]. cbn [fst] in *. subst h3.
    exists t. rewrite <- !app_assoc. reflexivity.
  - exists []. cbn [fst]. rewrite <- !app_assoc. reflexivity.
Qed.

(** Once the temporary directory is allocated, its removal is the last
    call of the request on every way out: success, a failed write, a
    failed extraction. *)
Theorem transcribe_removes_directory (w : world) (file : upload) (h : trace)
    (td : pystr) :
  allowed (upload_suffix file) = true ->
  mkdtemp w h = Return td ->
  exists t, fst (transcribe w file h) = (h ++ EvMkdtemp :: t) ++ [EvRmtree td].
Proof.
  intros Hok Htd.
  destruct (transcribe_trace w file h Hok Htd) as (t & ->).
  exists (EvWriteFile (temp_in_of td file) (content file) :: t).
  rewrite <- app_assoc. reflexivity.
Qed.

Lemma transcribe_removes_directory_witness :
  exists t,
    fst (transcribe Samples.full_disk Samples.clip_mp4 [])
    = (EvMkdtemp :: t) ++ [EvRmtree (lit "/tmp/tmpq1w2e3")].
Proof.
  apply (@transcribe_removes_directory Samples.full_disk Samples.clip_mp4 []
           (lit "/tmp/tmpq1w2e3") eq_refl eq_refl).
Defined.

(** The upload is stored under a name of the handler's own: [input.]
    followed by one of the accepted extensions, inside the temporary
    directory.  The client's file name reaches the file system in no other
    way, and the bytes written are the bytes uploaded. *)
Theorem transcribe_stores_upload_as_input (w : world) (file : upload)
    (h : trace) (td : pystr) :
  allowed (upload_suffix file) = true ->
  mkdtemp w h = Return td ->
  exists ext t,
    In ext ALLOWED_EXTENSIONS /\
    fst (transcribe w file h) =
    h ++ EvMkdtemp
      :: EvWriteFile (td ++ lit "/input." ++ ext) (content file) :: t.
Proof.
  intros Hok Htd.
  destruct (transcribe_trace w file h Hok Htd) as (t & ->).
  exists (upload_suffix file), (t ++ [EvRmtree td]).
  split; [apply allowed_In; exact Hok|reflexivity].
Qed.

Lemma transcribe_stores_upload_as_input_witness :
  exists ext t,
    In ext ALLOWED_EXTENSIONS /\
    fst (transcribe (Samples.healthy Samples.no_env) Hosts.upper_wav [])
    = [] ++ EvMkdtemp
         :: EvWriteFile (lit "/tmp/tmpq1w2e3" ++ lit "/input." ++ ext) [] :: t.
Proof.
  apply (@transcribe_stores_upload_as_input
           (Samples.healthy Samples.no_env) Hosts.upper_wav []
           (lit "/tmp/tmpq1w2e3") eq_refl eq_refl).
Defined.

(** When the upload cannot be written, no tool is launched and no service
    is contacted: the directory is removed and the exception leaves the
    handler. *)
Theorem transcribe_write_failure (w : world) (file : upload) (h : trace)
    (td : pystr) (e : pyexc) :
  allowed (upload_suffix file) = true ->
  mkdtemp w h = Return td ->
  write_file w (h ++ [EvMkdtemp]) (temp_in_of td file) (content file)
  = Raise e ->
  fst (transcribe w file h) =
  h ++ [EvMkdtemp; EvWriteFile (temp_in_of td file) (content file);
        EvRmtree td] /\
  (forall u,
     rmtree w ((h ++ [EvMkdtemp])
                 ++ [EvWriteFile (temp_in_of td file) (content file)]) td
     = Return u ->
     snd (transcribe w file h) = Raise (Uncaught e)).
Proof.
  intros Hok Htd Hwrite.
  rewrite (transcribe_accepted w file h Hok), Htd. cbv zeta.
  rewrite Hwrite. cbn [fst snd]. split.
  - rewrite <- !app_assoc. reflexivity.
  - intros u ->. reflexivity.
Qed.

Lemma transcribe_write_failure_witness :
  fst (transcribe Samples.full_disk Samples.clip_mp4 []) =
  [EvMkdtemp; EvWriteFile (lit "/tmp/tmpq1w2e3/input.mp4") [];
   EvRmtree (lit "/tmp/tmpq1w2e3")].
Proof.
  apply (proj1 (@transcribe_write_failure Samples.full_disk Samples.clip_mp4
                  [] (lit "/tmp/tmpq1w2e3") Samples.disk_full
                  eq_refl eq_refl eq_refl)).
Defined.

(** The executable is missing: the request is answered 500 with the
    "ffmpeg not found" detail, after the version query alone; the
    conversion is not launched and no transcription is attempted. *)
Theorem transcribe_tool_missing (w : world) (file : upload) (h : trace)
    (td : pystr) (e : pyexc) :
  allowed (upload_suffix file) = true ->
  mkdtemp w h = Return td ->
  let h2 :=
    (h ++ [EvMkdtemp]) ++ [EvWriteFile (temp_in_of td file) (content file)] in
  write_file w (h ++ [EvMkdtemp]) (temp_in_of td file) (content file)
  = Return tt ->
  subprocess_run w h2 (probe_argv w) = Raise e ->
  exc_type e = FileNotFoundError ->
  rmtree w (h2 ++ [EvRun (probe_argv w)]) td = Return tt ->
  transcribe w file h =
  ((h2 ++ [EvRun (probe_argv w)]) ++ [EvRmtree td],
   Raise (HTTPException 500 ffmpeg_not_found)).
Proof.
  intros Hok Htd h2 Hwrite Hprobe Hty Hrm.
  rewrite (transcribe_accepted w file h Hok), Htd. cbv zeta.
  rewrite Hwrite. fold h2. unfold pipeline, bind.
  rewrite extract_audio_run, Hprobe.
  apply is_FileNotFoundError_iff in Hty. rewrite Hty, Hrm. reflexivity.
Qed.

Lemma transcribe_tool_missing_witness :
  render (snd (transcribe
                 (Samples.with_run Samples.no_env
                    (fun _ => Raise Hosts.missing))
                 Samples.clip_mp4 []))
  = ErrorDetail 500 ffmpeg_not_found.
Proof.
  rewrite (@transcribe_tool_missing
             (Samples.with_run Samples.no_env (fun _ => Raise Hosts.missing))
             Samples.clip_mp4 [] (lit "/tmp/tmpq1w2e3") Hosts.missing
             eq_refl eq_refl eq_refl eq_refl eq_refl eq_refl).
  reflexivity.
Defined.

(** No credential: when the upload is accepted and stored and the
    conversion exits with status 0, the answer is the 200 with the
    placeholder text and its eleven words, indexed 0 to 10, after five
    calls: allocation, write, version query, conversion, removal. *)
Theorem transcribe_placeholder_response (w : world) (file : upload)
    (h : trace) (td : pystr) (cp : completed_process) (err : pystr) :
  allowed (upload_suffix file) = true ->
  truthy_opt (getenv w (lit "OPENAI_API_KEY")) = false ->
  mkdtemp w h = Return td ->
  let h2 :=
    (h ++ [EvMkdtemp]) ++ [EvWriteFile (temp_in_of td file) (content file)] in
  let h3 := h2 ++ [EvRun (probe_argv w)] in
  let cmd := conversion_argv w (temp_in_of td file) (audio_out_of td) in
  write_file w (h ++ [EvMkdtemp]) (temp_in_of td file) (content file)
  = Return tt ->
  subprocess_run w h2 (probe_argv w) = Return cp ->
  subprocess_run w h3 cmd = Return {| returncode := 0; stderr := err |} ->
  rmtree w (h3 ++ [EvRun cmd]) td = Return tt ->
  transcribe w file h =
  ((h3 ++ [EvRun cmd]) ++ [EvRmtree td], Return (body_of placeholder)) /\
  map key_i (key_words (body_of placeholder)) = seq 0 11 /\
  last (key_words (body_of placeholder)) {| key_w := []; key_i := 0 |}
  = {| key_w := lit "demo"; key_i := 10 |}.
Proof.
  intros Hok Hkey Htd h2 h3 cmd Hwrite Hprobe Hrun Hrm.
  split; [|split; reflexivity].
  rewrite (transcribe_accepted w file h Hok), Htd. cbv zeta.
  rewrite Hwrite. fold h2. unfold pipeline, bind.
  rewrite extract_audio_run, Hprobe. fold h3 cmd. rewrite Hrun.
  cbn [returncode Z.eqb].
  unfold transcribe_audio. rewrite Hkey. unfold ret. rewrite Hrm.
  reflexivity.
Qed.

Lemma transcribe_placeholder_response_witness :
  render (snd (transcribe (Samples.healthy Samples.no_env) Samples.wav []))
  = Json200 (body_of placeholder).
Proof.
  rewrite (proj1 (@transcribe_placeholder_response
                    (Samples.healthy Samples.no_env) Samples.wav []
                    (lit "/tmp/tmpq1w2e3")
                    {| returncode := 0; stderr := [] |} []
                    eq_refl eq_refl eq_refl eq_refl eq_refl eq_refl eq_refl)).
  reflexivity.
Defined.

Lemma pipeline_returns (w : world) (file : upload) (td : pystr) (h : trace)
    (text : pystr) :
  snd (pipeline w file td h) = Return text ->
  snd (extract_audio w (temp_in_of td file) (audio_out_of td) h) = Return tt /\
  truthy text = true.
Proof.
  unfold pipeline, bind.
  destruct (extract_audio w _ _ h) as [h' [[]|e]]; cbn [snd];
    [|discriminate].
  destruct (transcribe_audio_nonempty w (audio_out_of td) h')
    as (s & Hs & Htruthy).
  rewrite Hs. intros Heq. injection Heq as <-. auto.
Qed.

(** A 200 is sent only when the upload was stored and the extraction
    succeeded, and its [text] is never empty; a request that fails
    answers with no text and no words. *)
Theorem transcribe_ok_response (w : world) (file : upload) (h : trace)
    (b : body) :
  snd (transcribe w file h) = Return b ->
  truthy (key_text b) = true /\
  exists td,
    mkdtemp w h = Return td /\
    write_file w (h ++ [EvMkdtemp]) (temp_in_of td file) (content file)
    = Return tt /\
    snd (extract_audio w (temp_in_of td file) (audio_out_of td)
           ((h ++ [EvMkdtemp])
              ++ [EvWriteFile (temp_in_of td file) (content file)]))
    = Return tt.
Proof.
  destruct (allowed (upload_suffix file)) eqn:Hok.
  - rewrite (transcribe_accepted w file h Hok).
    destruct (mkdtemp w h) as [td|e]; [|discriminate].
    cbv zeta.
    destruct (write_file w (h ++ [EvMkdtemp]) (temp_in_of td file)
                (content file)) as [[]|e] eqn:Hwrite.
    + pose proof (@pipeline_returns w file td
                    ((h ++ [EvMkdtemp]) ++
                     [EvWriteFile (temp_in_of td file) (content file)]))
        as Hp.
      destruct (pipeline w file td _) as [h3 [text|e]];
        cbn [snd] in *; destruct (rmtree w h3 td); try discriminate.
      intros Hb. injection Hb as <-.
      destruct (Hp text eq_refl) as [Hex Htruthy].
      split; [exact Htruthy|]. exists td. auto.
    + cbn [snd]. destruct (rmtree w _ td); discriminate.
  - rewrite (transcribe_rejected w file h Hok). discriminate.
Qed.

Lemma transcribe_ok_response_witness :
  truthy (key_text (body_of placeholder)) = true.
Proof.
  apply (@transcribe_ok_response (Samples.healthy Samples.no_env)
           Samples.wav [] (body_of placeholder) eq_refl).
Defined.

(** ** Validation ignores case *)

Lemma dot_lower_char (c : ascii) :
  Ascii.eqb (lower_char c) "."%char = Ascii.eqb c "."%char.
Proof. each_char c; reflexivity. Qed.

Lemma after_last_dot_lower (s : pystr) :
  after_last_dot (lower s) = option_map lower (after_last_dot s).
Proof.
  induction s as [|c s IH]; [reflexivity|].
  cbn [lower map after_last_dot]. fold (lower s). rewrite IH.
  destruct (after_last_dot s) as [ext|]; [reflexivity|].
  cbn [option_map]. rewrite dot_lower_char.
  destruct (Ascii.eqb c "."%char); reflexivity.
Qed.

Lemma lower_idem (s : pystr) : lower (lower s) = lower s.
Proof.
  unfold lower. rewrite map_map. apply map_ext. intros c.
  apply lower_char_idem.
Qed.

Lemma extension_lower (name : pystr) : extension (lower name) = extension name.
Proof.
  unfold extension. rewrite after_last_dot_lower.
  destruct (after_last_dot name); cbn [option_map]; apply lower_idem.
Qed.

(** Two uploads with ASCII names that differ only in the case of their
    letters get the same suffix, so they pass or fail the validation alike
    and are stored under the same name. *)
Theorem upload_suffix_ignores_case (file1 file2 : upload) :
  forallb is_ascii (upload_name file1) = true ->
  forallb is_ascii (upload_name file2) = true ->
  lower (upload_name file1) = lower (upload_name file2) ->
  upload_suffix file1 = upload_suffix file2 /\
  allowed (upload_suffix file1) = allowed (upload_suffix file2).
Proof.
  intros _ _ H.
  assert (Hs : upload_suffix file1 = upload_suffix file2).
  { rewrite !upload_suffix_extension.
    rewrite <- (extension_lower (upload_name file1)), H.
    apply extension_lower. }
  split; [exact Hs|]. rewrite Hs. reflexivity.
Qed.

Lemma upload_suffix_ignores_case_witness :
  upload_suffix Hosts.upper_wav = upload_suffix Samples.wav /\
  allowed (upload_suffix Hosts.upper_wav) = allowed (upload_suffix Samples.wav).
Proof.
  pose proof (@upload_suffix_ignores_case Hosts.upper_wav
                {| filename := Some (lit "talk.wav"); content := [] |}
                eq_refl eq_refl eq_refl) as [H1 H2].
  split; [rewrite H1|rewrite H2]; reflexivity.
Defined.

(** ** The configuration probe *)

(** [GET /api/config]: the executable reported is the one the extraction
    would launch; an empty executable is not looked up on the search path
    and is reported unresolved; [available] is true exactly when the
    version query could be launched; and when that launch fails with
    anything but [FileNotFoundError] the endpoint raises instead of
    reporting. *)
Theorem api_config_report (w : world) (h : trace) :
  let exe := get_ffmpeg_executable w in
  let h1 := if truthy exe then h ++ [EvWhich exe] else h in
  fst (api_config w h) = h1 ++ [EvRun (probe_argv w)] /\
  (forall r,
     snd (api_config w h) = Return r ->
     configured r = exe /\
     (exe = [] -> resolved r = None) /\
     (available r = true <->
      exists cp, subprocess_run w h1 (probe_argv w) = Return cp)) /\
  (forall e,
     subprocess_run w h1 (probe_argv w) = Raise e ->
     exc_type e <> FileNotFoundError ->
     snd (api_config w h) = Raise e).
Proof.
  intros exe h1.
  assert (Hcfg : api_config w h =
                 (h1 ++ [EvRun (probe_argv w)],
                  match subprocess_run w h1 (probe_argv w) with
                  | Return _ =>
                      Return {| configured := exe;
                                resolved :=
                                  if truthy exe then which w h exe else None;
                                available := true |}
                  | Raise e =>
                      if is_FileNotFoundError e
                      then Return {| configured := exe;
                                     resolved :=
                                       if truthy exe then which w h exe
                                       else None;
                                     available := false |}
                      else Raise e
                  end)).
  { unfold api_config. fold exe. subst h1.
    destruct (truthy exe); unfold bind; rewrite has_ffmpeg_run;
      fold (probe_argv w);
      (destruct (subprocess_run w _ (probe_argv w)) as [cp|e];
       [reflexivity|destruct (is_FileNotFoundError e); reflexivity]). }
  rewrite Hcfg. cbn [fst snd]. split; [reflexivity|]. split.
  - intros r.
    destruct (subprocess_run w h1 (probe_argv w)) as [cp|e].
    + intros Hr. injection Hr as <-. cbn [configured resolved available].
      split; [reflexivity|]. split.
      * intros ->. reflexivity.
      * split; eauto.
    + destruct (is_FileNotFoundError e); [|discriminate].
      intros Hr. injection Hr as <-. cbn [configured resolved available].
      split; [reflexivity|]. split.
      * intros ->. reflexivity.
      * split; [discriminate|]. intros (cp & Hcp). discriminate.
  - intros e -> Hty.
    destruct (is_FileNotFoundError e) eqn:Hfnf; [|reflexivity].
    apply is_FileNotFoundError_iff in Hfnf. contradiction.
Qed.

Lemma api_config_report_witness :
  snd (api_config
         (Samples.with_run Samples.no_env (fun _ => Raise Hosts.no_exec)) [])
  = Raise Hosts.no_exec.
Proof.
  apply (proj2 (proj2 (api_config_report
                         (Samples.with_run Samples.no_env
                            (fun _ => Raise Hosts.no_exec)) []))).
  - reflexivity.
  - discriminate.
Defined.
